(** * amadeus-weatherstation-logger: the ingestion and duplicate-suppression pipeline

    A shallow embedding of [main.py]: the values the script handles
    (decoded JSON, strings, datetimes), the library calls it makes
    (requests, dateutil, pytz, gspread) behind explicit interfaces, and the
    script's own functions [require_env], [parse_any_datetime],
    [safe_fetch_current], [get_last_logged_timestamp] and [main].

    Conventions.
    - A Python exception is an explicit [Raise e] result; [try/except
      Exception] is a match that turns every [Raise] into a value.
    - An early [return] of [main] is the [Done] step of a small state monad
      whose state is the worksheet and the list of store operations made.
    - Time is counted in microseconds, the resolution of Python datetimes.
    - A text is held as the bytes of its UTF-8 encoding. *)

From Stdlib Require Import ZArith QArith Lia Bool List String Ascii SpecFloat Sorting.Sorted.
From stdpp Require Import base option list sorting strings pretty gmap.

#[local] Set Warnings "-register-all".
#[local] Open Scope string_scope.
#[local] Open Scope Z_scope.

(** ** Python values, exceptions and the few builtins the script uses *)

Module Py.

(** Exceptions the script can meet.  [LibraryError] stands for any exception
    class of a library that the model does not name. *)
Inductive exn :=
  | RuntimeError (msg : list string)
  | AttributeError
  | TypeError
  | KeyError
  | IndexError
  | ValueError
  | OverflowError
  | LibraryError (name : string).

Inductive res (A : Type) :=
  | Ok (a : A)
  | Raise (e : exn).
Arguments Ok {A} a.
Arguments Raise {A} e.

Definition res_bind {A B} (r : res A) (k : A -> res B) : res B :=
  match r with
  | Ok a => k a
  | Raise e => Raise e
  end.

(** [try: r except Exception: return d] *)
Definition try_except {A} (r : res A) (d : A) : A :=
  match r with
  | Ok a => a
  | Raise _ => d
  end.

(** A datetime: the wall-clock reading in microseconds since
    1970-01-01 00:00:00 on that clock, and the attached tzinfo (absent for a
    naive datetime).  A tzinfo attached to a datetime is characterised by
    the zone it belongs to and the UTC offset (in seconds) it gives. *)
Record tzinfo := { zone : string; utcoffset : Z }.
Record datetime := { wall : Z; tz : option tzinfo }.

(** What [json.loads] yields.  Floats are IEEE values as in [SpecFloat]. *)
Inductive value :=
  | VNone
  | VBool (b : bool)
  | VInt (n : Z)
  | VFloat (f : spec_float)
  | VStr (s : string)
  | VList (l : list value)
  | VDict (m : gmap string value).

(** The [Any] that [parse_any_datetime] takes: a decoded value or a cell
    text, or a datetime. *)
Inductive any :=
  | Value (v : value)
  | Datetime (d : datetime).

(** Truth value testing: [if v], [not v], [v or d]. *)
Definition truthy (v : value) : bool :=
  match v with
  | VNone => false
  | VBool b => b
  | VInt n => negb (n =? 0)
  | VFloat (S754_zero _) => false
  | VFloat _ => true
  | VStr s => negb (String.eqb s "")
  | VList l => match l with [] => false | _ => true end
  | VDict m => negb (bool_decide (m = ∅))
  end.

Definition py_or (v d : value) : value := if truthy v then v else d.

(** [v.get(k, d)]: a dict method; any other JSON value has no [get]. *)
Definition get (v : value) (k : string) (d : value) : res value :=
  match v with
  | VDict m => Ok (default d (m !! k))
  | _ => Raise AttributeError
  end.

(** [v[0]] *)
Definition getitem0 (v : value) : res value :=
  match v with
  | VList (x :: _) => Ok x
  | VList [] => Raise IndexError
  | VStr (String c _) => Ok (VStr (String c EmptyString))
  | VStr EmptyString => Raise IndexError
  | VDict _ => Raise KeyError
  | _ => Raise TypeError
  end.

(** [a is None] *)
Definition is_none (a : any) : bool :=
  match a with
  | Value VNone => true
  | _ => false
  end.

(** [a == ""] *)
Definition eq_empty_str (a : any) : bool :=
  match a with
  | Value (VStr s) => String.eqb s ""
  | _ => false
  end.

(** Texts.  A Python [str] is a sequence of Unicode characters; the model
    holds a text as the bytes of its UTF-8 encoding, one [ascii] each (a
    text with an unpaired surrogate has no encoding and is outside the
    model).

    The characters [str.isspace] is true of, which are the ones [str.strip]
    removes, by the length of their encoding:
    - one byte: U+0009..U+000D (TAB..CR), U+001C..U+001F (FS..US) and the
      space U+0020;
    - two bytes: U+0085 (C2 85) and the no-break space U+00A0 (C2 A0);
    - three bytes: U+1680 (E1 9A 80), U+2000..U+200A (E2 80 80..8A),
      U+2028, U+2029, U+202F (E2 80 A8, A9, AF), U+205F (E2 81 9F) and the
      ideographic space U+3000 (E3 80 80). *)
Definition space1 (a : ascii) : bool :=
  let a := nat_of_ascii a in
  ((9 <=? a) && (a <=? 13) || (28 <=? a) && (a <=? 32))%nat.

Definition space2 (a b : ascii) : bool :=
  let a := nat_of_ascii a in
  let b := nat_of_ascii b in
  ((a =? 194) && ((b =? 133) || (b =? 160)))%nat.

Definition space3 (a b c : ascii) : bool :=
  let a := nat_of_ascii a in
  let b := nat_of_ascii b in
  let c := nat_of_ascii c in
  ((a =? 225) && (b =? 154) && (c =? 128)
   || (a =? 226) && (b =? 128)
      && ((128 <=? c) && (c <=? 138) || (c =? 168) || (c =? 169) || (c =? 175))
   || (a =? 226) && (b =? 129) && (c =? 159)
   || (a =? 227) && (b =? 128) && (c =? 128))%nat.

(** The text without the whitespace characters it starts with.  With
    [backwards] the text is given last byte first, and so are the bytes of
    each character. *)
Fixpoint skip_spaces (backwards : bool) (s : string) : string :=
  match s with
  | String a s1 =>
      if space1 a then skip_spaces backwards s1
      else
        match s1 with
        | String b s2 =>
            if (if backwards then space2 b a else space2 a b)
            then skip_spaces backwards s2
            else
              match s2 with
              | String c s3 =>
                  if (if backwards then space3 c b a else space3 a b c)
                  then skip_spaces backwards s3
                  else s
              | EmptyString => s
              end
        | EmptyString => s
        end
  | EmptyString => s
  end.

Definition lstrip (s : string) : string := skip_spaces false s.

Definition rstrip (s : string) : string := String.rev (skip_spaces true (String.rev s)).

Definition strip (s : string) : string := rstrip (lstrip s).

(** [s[:n]] *)
Fixpoint slice_to (n : nat) (s : string) : string :=
  match n, s with
  | S n', String c s' => String c (slice_to n' s')
  | _, _ => EmptyString
  end.

End Py.
Import Py.

(** ** The proleptic Gregorian calendar and [strftime] *)

Module Calendar.

(** Days since 1970-01-01 of a civil date, and back (the era-based
    conversion; years are astronomical, months 1..12). *)
Definition days_from_civil (y m d : Z) : Z :=
  let y := if m <=? 2 then y - 1 else y in
  let era := y / 400 in
  let yoe := y - era * 400 in
  let mp := if 2 <? m then m - 3 else m + 9 in
  let doy := (153 * mp + 2) / 5 + d - 1 in
  let doe := yoe * 365 + yoe / 4 - yoe / 100 + doy in
  era * 146097 + doe - 719468.

Definition civil_from_days (z : Z) : Z * Z * Z :=
  let z := z + 719468 in
  let era := z / 146097 in
  let doe := z - era * 146097 in
  let yoe := (doe - doe / 1460 + doe / 36524 - doe / 146096) / 365 in
  let y := yoe + era * 400 in
  let doy := doe - (365 * yoe + yoe / 4 - yoe / 100) in
  let mp := (5 * doy + 2) / 153 in
  let d := doy - (153 * mp + 2) / 5 + 1 in
  let m := if mp <? 10 then mp + 3 else mp - 9 in
  (if m <=? 2 then y + 1 else y, m, d).

Definition US : Z := 1000000.

(** Seconds since the epoch of a civil date and time of day. *)
Definition seconds_of (y m d hh mm ss : Z) : Z :=
  days_from_civil y m d * 86400 + hh * 3600 + mm * 60 + ss.

(** [datetime.min] and [datetime.max] (years MINYEAR = 1 .. MAXYEAR = 9999). *)
Definition WALL_MIN : Z := seconds_of 1 1 1 0 0 0 * US.
Definition WALL_MAX : Z := seconds_of 9999 12 31 23 59 59 * US + 999999.

Definition in_range (w : Z) : bool := (WALL_MIN <=? w) && (w <=? WALL_MAX).

(** The reading truncated to whole seconds (what a format without [%f] keeps). *)
Definition floor_sec (w : Z) : Z := w - w mod US.

Definition digit (n : Z) : ascii := ascii_of_nat (48 + Z.to_nat (n mod 10)).

Definition pad2 (n : Z) (k : string) : string :=
  String (digit (n / 10)) (String (digit n) k).

Definition pad4 (n : Z) (k : string) : string :=
  String (digit (n / 1000)) (String (digit (n / 100)) (pad2 n k)).

(** [strftime("%Y-%m-%d %H:%M:%S")] of a wall-clock reading.  The year is
    written with four digits, the pattern of the specification and what
    every platform prints from year 1000 on (for earlier years the C library
    decides whether zeros lead). *)
Definition strftime_wall (w : Z) : string :=
  let secs := w / US in
  let '(y, m, d) := civil_from_days (secs / 86400) in
  let sod := secs mod 86400 in
  pad4 y (String "-" (pad2 m (String "-" (pad2 d (String " "
    (pad2 (sod / 3600) (String ":" (pad2 (sod mod 3600 / 60) (String ":"
      (pad2 (sod mod 60) EmptyString))))))))))%char.

Definition strftime (d : datetime) : string := strftime_wall (wall d).

End Calendar.
Import Calendar.

(** ** Time zones: what the script uses of [datetime] and [pytz] *)

Module Zones.

(** A [pytz] timezone object, by what the script asks of it: the offset
    (seconds) in effect at a UTC instant (seconds), which is what [fromutc]
    applies; the offset [localize(dt)] (with its default [is_dst=False])
    picks for a naive wall-clock reading (seconds), or the exception it
    raises; and the offset the object carries itself. *)
Record tzone := {
  zone_name : string;
  own_offset : Z;
  fromutc_offset : Z -> Z;
  localize_offset : Z -> res Z
}.

(** The timezone object is itself a tzinfo: a static zone is the tzinfo of
    every datetime it tags; a zone with transitions carries the offset of
    its earliest rule (local mean time) and hands out one tzinfo object per
    offset.  In the model a tzinfo object is identified by its zone and its
    offset. *)
Definition tzinfo_of (z : tzone) : tzinfo :=
  {| zone := zone_name z; utcoffset := own_offset z |}.

#[global] Instance tzinfo_eq_dec : EqDecision tzinfo.
Proof. solve_decision. Defined.

(** The UTC instant (microseconds) of a datetime; for a naive one the
    reading itself.  The script only compares and subtracts datetimes that
    [parse_any_datetime] returned: they are aware (lemma
    [parse_any_datetime_aware]), and Python orders aware datetimes by their
    UTC instants. *)
Definition instant (d : datetime) : Z :=
  match tz d with
  | Some i => wall d - utcoffset i * US
  | None => wall d
  end.

(** [TZ.localize(dt)]: the reading is kept, the tzinfo attached. *)
Definition localize (z : tzone) (d : datetime) : res datetime :=
  match tz d with
  | Some _ => Raise ValueError
  | None =>
      match localize_offset z (wall d / US) with
      | Ok o => Ok {| wall := wall d; tz := Some {| zone := zone_name z; utcoffset := o |} |}
      | Raise e => Raise e
      end
  end.

(** [dt.astimezone(z)].  A datetime whose tzinfo is the object [z] itself
    is returned as it is.  Any other is converted: the same instant, read on
    the clock of [z]; a naive [dt] is taken to be in the system zone [sys].
    The conversion goes through UTC, and datetime arithmetic raises
    [OverflowError] when it leaves [datetime.min .. datetime.max]. *)
Definition convert (z : tzone) (d : datetime) (off : Z) : res datetime :=
  let u := wall d - off * US in
  if negb (in_range u) then Raise OverflowError
  else
    let o := fromutc_offset z (u / US) in
    let w := u + o * US in
    if negb (in_range w) then Raise OverflowError
    else Ok {| wall := w; tz := Some {| zone := zone_name z; utcoffset := o |} |}.

Definition astimezone (sys z : tzone) (d : datetime) : res datetime :=
  match tz d with
  | Some i =>
      if bool_decide (i = tzinfo_of z) then Ok d
      else convert z d (utcoffset i)
  | None => res_bind (localize_offset sys (wall d / US)) (convert z d)
  end.

(** [a <= b] on aware datetimes. *)
Definition dt_le (a b : datetime) : bool := instant a <=? instant b.

(** [num / den] (for [0 < den]) rounded to the nearest integer, ties to the
    even one. *)
Definition round_half_even (num den : Z) : Z :=
  let q := num / den in
  let r := num mod den in
  if 2 * r <? den then q
  else if den <? 2 * r then q + 1
  else if Z.even q then q else q + 1.

(** The binade of the ratio of two positive integers: the [b] with
    [2^b <= n / m < 2^(b+1)]. *)
Definition binade (n m : Z) : Z :=
  let l := Z.log2 n - Z.log2 m in
  if (if 0 <=? l then m * 2 ^ l <=? n else m <=? n * 2 ^ (- l)) then l else l - 1.

(** The binary64 number nearest to [n / m] (for [0 < m]), ties to even: a
    mantissa of 53 bits (or [2^53], after a carry) and an exponent, the
    number being [mantissa * 2^exponent].  The quotients of the script are
    between 10^-6 and 10^12 in magnitude, far from overflow and from
    subnormal numbers. *)
Definition nearest_double (n m : Z) : Z * Z :=
  if n =? 0 then (0, 0)
  else
    let a := Z.abs n in
    let k := binade a m - 52 in
    let mant := if 0 <=? k then round_half_even a (m * 2 ^ k)
                else round_half_even (a * 2 ^ (- k)) m in
    (Z.sgn n * mant, k).

Definition double_value (f : Z * Z) : Q :=
  if 0 <=? f.2 then inject_Z (f.1 * 2 ^ f.2) else f.1 # Z.to_pos (2 ^ (- f.2)).

(** [n / m] on Python integers: the quotient correctly rounded to a double
    (here the rational that double is). *)
Definition true_divide (n m : Z) : Q := double_value (nearest_double n m).

(** [(a - b).total_seconds()] on aware datetimes: the difference of the
    instants is an exact number of microseconds, [total_seconds] divides it
    by 10^6 into a double.  The comparison of that double with the integer
    window ([diff_sec < DUP_WINDOW_SEC]) is exact in Python. *)
Definition total_seconds (a b : datetime) : Q := true_divide (instant a - instant b) 1000000.

(** *** Concrete zones *)

(** A static zone of [pytz] (UTC, a fixed offset): the object is the tzinfo
    of its datetimes, its clock keeps the one offset, and [localize]
    attaches the object whatever the reading. *)
Definition fixed_zone (name : string) (off : Z) : tzone :=
  {| zone_name := name;
     own_offset := off;
     fromutc_offset := fun _ => off;
     localize_offset := fun _ => Ok off |}.

Definition UTC : tzone := fixed_zone "UTC" 0.

(** A zone with transitions, as [pytz] keeps it: the offset of local mean
    time (the object's own), the rule before the first transition listed,
    then the transitions by increasing UTC time.  A rule is identified by
    its offset and its daylight-saving flag. *)
Record transition := { at_utc : Z; offset : Z; is_dst : bool }.

Fixpoint info_at (cur : Z * bool) (ts : list transition) (u : Z) : Z * bool :=
  match ts with
  | [] => cur
  | t :: ts' => if at_utc t <=? u then info_at (offset t, is_dst t) ts' u else cur
  end.

(** [datetime.min] and [datetime.max] in whole seconds; datetime arithmetic
    raises [OverflowError] outside. *)
Definition SEC_MIN : Z := seconds_of 1 1 1 0 0 0.
Definition SEC_MAX : Z := seconds_of 9999 12 31 23 59 59.

Definition sec_in_range (s : Z) : bool := (SEC_MIN <=? s) && (s <=? SEC_MAX).

(** [localize] (with its default [is_dst=False]) tries the rules in force a
    day before and a day after the reading, each time taking the shifted
    reading for a UTC time, and keeps those under which the reading exists:
    it normalizes the reading tagged with the rule (to UTC by the rule's
    offset, back by the offset in force then) and compares.  One candidate:
    that one.  None (the reading falls in a spring-forward gap): what
    [localize] answers six hours earlier.  Two (the reading occurs twice):
    the one that is not daylight saving time, and failing that the later
    instant.  Every step of datetime arithmetic on the way can leave the
    range: a reading within a day of [datetime.min] or [datetime.max] makes
    [localize] raise [OverflowError]. *)
Definition candidate (init : Z * bool) (ts : list transition) (w delta : Z)
  : res (option (Z * bool)) :=
  if negb (sec_in_range (w + delta)) then Raise OverflowError
  else
    let c := info_at init ts (w + delta) in
    if negb (sec_in_range (w - c.1)) then Raise OverflowError
    else
      let n := info_at init ts (w - c.1) in
      if negb (sec_in_range (w - c.1 + n.1)) then Raise OverflowError
      else Ok (if n.1 =? c.1 then Some n else None).

Fixpoint dst_localize_offset (fuel : nat) (init : Z * bool) (ts : list transition) (w : Z)
  : res Z :=
  res_bind (candidate init ts w (-86400)) (fun a =>
  res_bind (candidate init ts w 86400) (fun b =>
  match a, b with
  | Some a, None => Ok a.1
  | None, Some b => Ok b.1
  | None, None =>
      match fuel with
      | O => Raise (LibraryError "RecursionError")
      | S fuel' =>
          if negb (sec_in_range (w - 6 * 3600)) then Raise OverflowError
          else dst_localize_offset fuel' init ts (w - 6 * 3600)
      end
  | Some a, Some b =>
      if a.1 =? b.1 then Ok a.1
      else if negb a.2 && b.2 then Ok a.1
      else if negb b.2 && a.2 then Ok b.1
      else Ok (Z.min a.1 b.1)
  end)).

Definition dst_zone (name : string) (lmt : Z) (init : Z * bool) (ts : list transition)
  : tzone :=
  {| zone_name := name;
     own_offset := lmt;
     fromutc_offset := fun u => (info_at init ts u).1;
     localize_offset := dst_localize_offset 8 init ts |}.

(** Africa/Johannesburg, the default, with the whole history the time zone
    database has for it: local mean time (1:52 ahead of UTC, the offset the
    zone object carries) until 1892, 1:30 ahead until 1903, two hours ahead
    since, with daylight saving time in the summers of 1942-43 and
    1943-44. *)
Definition SAST : tzone :=
  dst_zone "Africa/Johannesburg" 6720 (6720, false)
    [ {| at_utc := seconds_of 1892 2 7 22 8 0; offset := 5400; is_dst := false |};
      {| at_utc := seconds_of 1903 2 28 22 30 0; offset := 7200; is_dst := false |};
      {| at_utc := seconds_of 1942 9 20 0 0 0; offset := 10800; is_dst := true |};
      {| at_utc := seconds_of 1943 3 20 23 0 0; offset := 7200; is_dst := false |};
      {| at_utc := seconds_of 1943 9 19 0 0 0; offset := 10800; is_dst := true |};
      {| at_utc := seconds_of 1944 3 18 23 0 0; offset := 7200; is_dst := false |} ].

(** Europe/London in the year 2024 (the examples use it for instants of
    that year only): local mean time, which [pytz] keeps to the minute, one
    minute behind UTC; GMT, British Summer Time from 2024-03-31 01:00 UTC,
    GMT again from 2024-10-27 01:00 UTC. *)
Definition London : tzone :=
  dst_zone "Europe/London" (-60) (0, false)
    [ {| at_utc := seconds_of 2024 3 31 1 0 0; offset := 3600; is_dst := true |};
      {| at_utc := seconds_of 2024 10 27 1 0 0; offset := 0; is_dst := false |} ].

End Zones.
Import Zones.

(** ** The script *)

(** The libraries and the host, as far as the script depends on them.
    - [dateparser_parse s]: [dateutil.parser.parse(s)], which returns a
      datetime (naive or aware), returns [None], or raises;
    - [str_of v]: [str(v)] of a value that is not a string;
    - [system_zone]: the host's local zone ([astimezone] of a naive datetime);
    - [cell_text v]: the text the sheet gives back for a cell appended as [v]. *)
Record libs := {
  dateparser_parse : string -> res (option datetime);
  str_of : value -> string;
  system_zone : tzone;
  cell_text : value -> string
}.

(** The configuration read from the environment (strings already stripped). *)
Record config := {
  TZ : tzone;
  GOOGLE_SHEET_ID : string;
  GOOGLE_SERVICE_ACCOUNT_FILE : string;
  WCOM_API_KEY : string;
  STATION_ID : string;
  DUP_WINDOW_SEC : Z
}.

Definition SHEET_TAB_NAME : string := "Current_Conditions".

(** What [requests.get] returned: [r.status_code], [r.text] and the outcome
    of [r.json()]. *)
Record Response := {
  status_code : Z;
  text : string;
  json : res value
}.

(** The worksheet: its rows, each a list of cell texts ([get_all_values]). *)
Definition worksheet := list (list string).

(** Operations made on the log store, in order. *)
Inductive event :=
  | EOpen (sheet_id tab : string)
  | EGetAllValues
  | EAppendRow (row : list value).

Record world := { sheet : worksheet; trace : list event }.

(** What a run prints before it returns. *)
Inductive message :=
  | NoNewData
  | ApiError (status : Z) (body : string)
  | NoObservations
  | MissingObsTime
  | UnparsableObsTime (v : value)
  | NotNewer (api last : string)
  | TooSoon (window : Z) (api : string)
  | Logged (ts : string).

(** One step of [main]: go on with a value, [return] after a print, or let
    an exception escape. *)
Inductive step (A : Type) :=
  | Next (a : A)
  | Done (m : message)
  | Crash (e : exn).
Arguments Next {A} a.
Arguments Done {A} m.
Arguments Crash {A} e.

Definition M (A : Type) : Type := world -> step A * world.

Definition bind {A B} (m : M A) (k : A -> M B) : M B :=
  fun w =>
    match m w with
    | (Next a, w') => k a w'
    | (Done msg, w') => (Done msg, w')
    | (Crash e, w') => (Crash e, w')
    end.

Definition ret {A} (a : A) : M A := fun w => (Next a, w).
Definition done {A} (msg : message) : M A := fun w => (Done msg, w).
Definition lift {A} (r : res A) : M A :=
  fun w => match r with Ok a => (Next a, w) | Raise e => (Crash e, w) end.
Definition emit (e : event) : M unit :=
  fun w => (Next tt, {| sheet := sheet w; trace := (trace w ++ [e])%list |}).

Notation "'let*' x ':=' m 'in' k" := (bind m (fun x => k))
  (at level 10, x name, m at level 100, k at level 200).

(** [sh.worksheet(...)], [ws.get_all_values()], [ws.append_row(row)].  The
    store is an append-only log with read-back.  Failures of the store
    (credentials, transport) end a run with an exception before anything is
    appended; they are outside the model. *)
Definition open_worksheet (cfg : config) : M unit :=
  emit (EOpen (GOOGLE_SHEET_ID cfg) SHEET_TAB_NAME).

Definition get_all_values : M (list (list string)) :=
  let* _ := emit EGetAllValues in
  fun w => (Next (sheet w), w).

Definition append_row (L : libs) (row : list value) : M unit :=
  fun w =>
    (Next tt, {| sheet := (sheet w ++ [map (cell_text L) row])%list;
                 trace := (trace w ++ [EAppendRow row])%list |}).

Section Script.

Context (L : libs) (cfg : config).

(** [require_env] (lines 42-53) *)
Definition require_env : res unit :=
  let missing :=
    map fst (filter (fun kv => String.eqb (snd kv) "")
      [ ("GOOGLE_SHEET_ID", GOOGLE_SHEET_ID cfg);
        ("GOOGLE_SERVICE_ACCOUNT_FILE", GOOGLE_SERVICE_ACCOUNT_FILE cfg);
        ("WCOM_API_KEY", WCOM_API_KEY cfg);
        ("STATION_ID", STATION_ID cfg) ]) in
  match missing with
  | [] => Ok tt
  | _ => Raise (RuntimeError missing)
  end.

(** [str(value)] *)
Definition str (v : value) : string :=
  match v with
  | VStr s => s
  | _ => str_of L v
  end.

(** Lines 65-67 and 73-76: tag a naive datetime, convert an aware one. *)
Definition to_TZ (d : datetime) : res datetime :=
  match tz d with
  | None => localize (TZ cfg) d
  | Some _ => astimezone (system_zone L) (TZ cfg) d
  end.

(** [parse_any_datetime] (lines 56-79) *)
Definition parse_any_datetime (value : any) : res (option datetime) :=
  if is_none value || eq_empty_str value then Ok None
  else
    match value with
    | Datetime d => res_bind (to_TZ d) (fun d' => Ok (Some d'))
    | Value v =>
        Ok (try_except
              (res_bind (dateparser_parse L (str v)) (fun p =>
                 match p with
                 | None => Ok None
                 | Some dt => res_bind (to_TZ dt) (fun d' => Ok (Some d'))
                 end))
              None)
    end.

(** [safe_fetch_current] (lines 92-114), given the response of the request. *)
Definition safe_fetch_current (r : Response) : Z * value * string :=
  let status := status_code r in
  let text := text r in
  if status =? 204 then (status, VNone, text)
  else if negb (status =? 200) then (status, VNone, text)
  else if String.eqb (strip text) "" then (status, VNone, text)
  else (status, try_except (json r) VNone, text).

(** The loop of lines 127-129 over [reversed(values[1:])]. *)
Fixpoint scan_rows (rows : list (list string)) : res (option datetime) :=
  match rows with
  | [] => Ok None
  | row :: rest =>
      match row with
      | c :: _ =>
          if negb (String.eqb (strip c) "") then parse_any_datetime (Value (VStr c))
          else scan_rows rest
      | [] => scan_rows rest
      end
  end.

(** [get_last_logged_timestamp] (lines 117-131) *)
Definition get_last_logged_timestamp : M (option datetime) :=
  let* values := get_all_values in
  if (length values <? 2)%nat then ret None
  else lift (scan_rows (rev (tl values))).

(** The duplicate/old guard (lines 182-191): the print of the skip, or
    nothing when the observation goes on to be logged. *)
Definition duplicate_guard (obs_ts : datetime) (timestamp_str : string)
    (last_ts : option datetime) : option message :=
  match last_ts with
  | None => None
  | Some last =>
      if dt_le obs_ts last then Some (NotNewer timestamp_str (strftime last))
      else
        let diff_sec := total_seconds obs_ts last in
        if negb (Qle_bool (inject_Z (DUP_WINDOW_SEC cfg)) diff_sec)
        then Some (TooSoon (DUP_WINDOW_SEC cfg) timestamp_str)
        else None
  end.

(** The field mapping (lines 194-206). *)
Definition map_row (timestamp_str : string) (obs : value) : res (list value) :=
  res_bind (get obs "metric" VNone) (fun metric =>
  let m := py_or metric (VDict ∅) in
  res_bind (get m "temp" (VStr "")) (fun temp =>
  res_bind (get m "windSpeed" (VStr "")) (fun windSpeed =>
  res_bind (get m "windGust" (VStr "")) (fun windGust =>
  res_bind (get obs "winddir" (VStr "")) (fun winddir =>
  res_bind (get m "precipRate" (VStr "")) (fun precipRate =>
  res_bind (get m "precipTotal" (VStr "")) (fun precipTotal =>
  res_bind (get m "pressure" (VStr "")) (fun pressure =>
  res_bind (get obs "humidity" (VStr "")) (fun humidity =>
  Ok [ VStr timestamp_str; temp; windSpeed; windGust; winddir;
       precipRate; precipTotal; pressure; humidity ]))))))))).

(** Lines 141-157 of [main]: the response is classified; the run goes on
    with the first observation or returns after a print. *)
Definition classify (r : Response) : M value :=
  (* 1) Fetch API *)
  let '(status, data, raw) := safe_fetch_current r in
  if status =? 204 then done NoNewData
  else if negb (status =? 200) || negb (truthy data)
  then done (ApiError status (slice_to 300 raw))
  else
  let* observations := lift (get data "observations" VNone) in
  let obs_list := py_or observations (VList []) in
  if negb (truthy obs_list) then done NoObservations
  else
  let* obs := lift (getitem0 obs_list) in
  ret obs.

(** Lines 159-210 of [main]: what the run does with the observation. *)
Definition log_observation (obs : value) : M unit :=
  (* 2) Convert obsTimeLocal and format the required string *)
  let* obs_time_local := lift (get obs "obsTimeLocal" VNone) in
  if negb (truthy obs_time_local) then done MissingObsTime
  else
  let* parsed := lift (parse_any_datetime (Value obs_time_local)) in
  match parsed with
  | None => done (UnparsableObsTime obs_time_local)
  | Some obs_ts =>
  let* obs_ts := lift (astimezone (system_zone L) (TZ cfg) obs_ts) in
  let timestamp_str := strftime obs_ts in
  (* 3) Open sheet *)
  let* _ := open_worksheet cfg in
  (* 4) Duplicate/old guard *)
  let* last_ts := get_last_logged_timestamp in
  match duplicate_guard obs_ts timestamp_str last_ts with
  | Some msg => done msg
  | None =>
  (* 5) Map fields *)
  let* row := lift (map_row timestamp_str obs) in
  (* 6) Append *)
  let* _ := append_row L row in
  done (Logged timestamp_str)
  end
  end.

(** [main] (lines 137-210), given the response of the request. *)
Definition main (r : Response) : M unit :=
  let* _ := lift require_env in
  let* obs := classify r in
  log_observation obs.

(** The sheet after one run, and after a sequence of runs. *)
Definition run (ws : worksheet) (r : Response) : worksheet :=
  sheet (main r {| sheet := ws; trace := [] |}).2.

Definition runs (ws : worksheet) (rs : list Response) : worksheet :=
  fold_left run rs ws.

(** The log reader's answer on a sheet, as an instant. *)
Definition read_back (cell : string) : option Z :=
  match parse_any_datetime (Value (VStr cell)) with
  | Ok (Some d) => Some (instant d)
  | _ => None
  end.

End Script.

(** ** The log as the specification speaks of it *)

(** The timestamp column, top to bottom, header excluded (a row without
    cells shows as a blank cell). *)
Definition timestamp_column (ws : worksheet) : list string :=
  (fun row => hd "" row) <$> tl ws.

Definition nonblank (cell : string) : bool := negb (String.eqb (strip cell) "").

(** The last non-blank cell of the timestamp column. *)
Definition last_timestamp_cell (ws : worksheet) : option string :=
  last (filter (fun c => nonblank c = true) (timestamp_column ws)).

(** The column reads back, cell by cell, as the instants [ts]. *)
Definition column_reads (L : libs) (cfg : config) (ws : worksheet) (ts : list Z) : Prop :=
  read_back L cfg <$> timestamp_column ws = Some <$> ts.

(** The column is monotonically non-decreasing: every cell reads back as an
    instant, and the instants never decrease from top to bottom. *)
Definition log_monotone (L : libs) (cfg : config) (ws : worksheet) : Prop :=
  exists ts, column_reads L cfg ws ts /\ StronglySorted Z.le ts.

(** A datetime of the zone [z] is settled when it is within range and
    [localize] resolves its reading to an instant that is not earlier. *)
Definition settled (z : tzone) (d : datetime) : Prop :=
  in_range (wall d) = true
  /\ exists od o,
       tz d = Some {| zone := zone_name z; utcoffset := od |}
       /\ localize_offset z (wall d / US) = Ok o /\ o <= od.

(** A log as the runs keep it: monotone, with whole seconds and no blank
    cell in the timestamp column. *)
Definition kept (L : libs) (cfg : config) (ws : worksheet) : Prop :=
  exists ts, column_reads L cfg ws ts /\ StronglySorted Z.le ts
    /\ Forall (fun t => t mod US = 0) ts
    /\ Forall (fun c => nonblank c = true) (timestamp_column ws).

(** The times the log is made for, in seconds: from the start of the year
    1000 (from where every platform writes the year with four digits) to
    two days before [datetime.max] (where [localize] has room for the day it
    adds). *)
Definition ERA_MIN : Z := seconds_of 1000 1 1 0 0 0.
Definition ERA_MAX : Z := SEC_MAX - 2 * 86400.

Definition inside (s : Z) : bool := (ERA_MIN <=? s) && (s <=? ERA_MAX).

(** Both the clock reading and the UTC instant of the datetime are such
    times. *)
Definition inside_dt (d : datetime) : bool :=
  inside (wall d / US) && inside (instant d / US).

(** The library behaviour the round trip through the log relies on.
    [dateutil] reads a string in the fixed pattern, from the year 1000 on,
    as the naive datetime with those fields.  The datetimes it returns are
    within [datetime.min .. datetime.max], and a tzinfo it attaches is an
    object of its own, never the configured [pytz] zone.  The sheet gives a
    text cell back as it was written. *)
Definition parser_reads_pattern (L : libs) : Prop :=
  forall w, in_range w = true -> ERA_MIN * US <= w ->
    dateparser_parse L (strftime_wall w) = Ok (Some {| wall := floor_sec w; tz := None |}).

Definition parser_returns_datetimes (L : libs) (cfg : config) : Prop :=
  forall s d, dateparser_parse L s = Ok (Some d) ->
    in_range (wall d) = true /\ tz d <> Some (tzinfo_of (TZ cfg)).

Definition sheet_keeps_text (L : libs) : Prop :=
  forall s, cell_text L (VStr s) = s.

(** [localize] resolves every such reading the zone's own clock shows, and
    to an instant that is not earlier than the one that showed it (where a
    reading occurs twice, the later occurrence). *)
Definition localize_not_earlier (z : tzone) : Prop :=
  forall u, inside u = true -> inside (u + fromutc_offset z u) = true ->
    exists o,
      localize_offset z (u + fromutc_offset z u) = Ok o /\ o <= fromutc_offset z u.

(** The datetime a run formats for the response, when it comes that far
    (lines 141-171). *)
Definition observation_time (L : libs) (cfg : config) (r : Response) : option datetime :=
  match classify r {| sheet := []; trace := [] |} with
  | (Next obs, _) =>
      match get obs "obsTimeLocal" VNone with
      | Ok v =>
          if truthy v then
            match parse_any_datetime L cfg (Value v) with
            | Ok (Some d) =>
                match astimezone (system_zone L) (TZ cfg) d with
                | Ok obs_ts => Some obs_ts
                | Raise _ => None
                end
            | _ => None
            end
          else None
      | Raise _ => None
      end
  | _ => None
  end.

(** The observation of the response, if it has one with a time, is of the
    times the log is made for. *)
Definition observed_inside (L : libs) (cfg : config) (r : Response) : bool :=
  match observation_time L cfg r with
  | Some obs_ts => inside_dt obs_ts
  | None => true
  end.

(** [localize] resolves the reading of [d] to the offset [d] carries. *)
Definition reads_back_same (z : tzone) (d : datetime) : Prop :=
  exists i, tz d = Some i /\ localize_offset z (wall d / US) = Ok (utcoffset i).

(** What [get_last_logged_timestamp] answers on a sheet with rows [ws]. *)
Definition last_logged (L : libs) (cfg : config) (ws : worksheet) : res (option datetime) :=
  if (length ws <? 2)%nat then Ok None else scan_rows L cfg (rev (tl ws)).

(** The store operations of a run that logs [row]. *)
Definition logging_trace (cfg : config) (row : list value) : list event :=
  [EOpen (GOOGLE_SHEET_ID cfg) SHEET_TAB_NAME; EGetAllValues; EAppendRow row].

(** ** The row as the specification speaks of it *)

(** [m.get(k, "")] on a dict. *)
Definition field (m : gmap string value) (k : string) : value :=
  default (VStr "") (m !! k).

(** The metric sub-structure the mapper reads from an observation: the
    [metric] member when it is a dict, the empty dict when the member is
    absent, null or otherwise falsy; no such structure when the member is
    any other value. *)
Definition metric_of (o : gmap string value) : option (gmap string value) :=
  match o !! "metric" with
  | None => Some ∅
  | Some v =>
      if truthy v then match v with VDict m => Some m | _ => None end
      else Some ∅
  end.

(** The nine columns, in order. *)
Definition mapped_row (ts : string) (o m : gmap string value) : list value :=
  [ VStr ts; field m "temp"; field m "windSpeed"; field m "windGust";
    field o "winddir"; field m "precipRate"; field m "precipTotal";
    field m "pressure"; field o "humidity" ].

(** ** Further notions the properties speak of *)

(** The settings [require_env] checks, in the order it checks them. *)
Definition required_names : list string :=
  ["GOOGLE_SHEET_ID"; "GOOGLE_SERVICE_ACCOUNT_FILE"; "WCOM_API_KEY"; "STATION_ID"].

(** What one turn of the loop of lines 44-51 adds to [missing]. *)
Definition name_if_empty (k v : string) : list string :=
  if String.eqb v "" then [k] else [].

Definition missing_names (cfg : config) : list string :=
  (name_if_empty "GOOGLE_SHEET_ID" (GOOGLE_SHEET_ID cfg)
   ++ name_if_empty "GOOGLE_SERVICE_ACCOUNT_FILE" (GOOGLE_SERVICE_ACCOUNT_FILE cfg)
   ++ name_if_empty "WCOM_API_KEY" (WCOM_API_KEY cfg)
   ++ name_if_empty "STATION_ID" (STATION_ID cfg))%list.

(** The text with the given bytes. *)
Definition utf8 (l : list Z) : string :=
  string_of_list_ascii (map (fun n => ascii_of_nat (Z.to_nat n)) l).

(** The whitespace characters of Unicode, each in its UTF-8 encoding:
    U+0009..U+000D, U+001C..U+0020, U+0085, U+00A0, U+1680,
    U+2000..U+200A, U+2028, U+2029, U+202F, U+205F, U+3000. *)
Definition WHITESPACE : list string :=
  map utf8
    [ [9]; [10]; [11]; [12]; [13]; [28]; [29]; [30]; [31]; [32];
      [194; 133]; [194; 160]; [225; 154; 128];
      [226; 128; 128]; [226; 128; 129]; [226; 128; 130]; [226; 128; 131];
      [226; 128; 132]; [226; 128; 133]; [226; 128; 134]; [226; 128; 135];
      [226; 128; 136]; [226; 128; 137]; [226; 128; 138];
      [226; 128; 168]; [226; 128; 169]; [226; 128; 175]; [226; 129; 159];
      [227; 128; 128] ].

(** A text that is a sequence of characters of [W]. *)
Inductive made_of (W : list string) : string -> Prop :=
  | made_of_nothing : made_of W ""
  | made_of_more c s : In c W -> made_of W s -> made_of W (c ++ s).

(** The text consists of whitespace characters only (the empty text does). *)
Definition whitespace_only (s : string) : Prop := made_of WHITESPACE s.

(** The whitespace characters, as they stand in a text read forwards or
    backwards. *)
Definition patterns (backwards : bool) : list string :=
  if backwards then map String.rev WHITESPACE else WHITESPACE.

(** What a run has done when it ends with [s] in the world [w'], having
    started in [w]: it has logged one row of nine values below the rows it
    found, or it has appended nothing. *)
Definition run_effect (L : libs) (cfg : config) (w : world) (s : step unit) (w' : world)
  : Prop :=
  match s with
  | Next _ => False
  | Done (Logged ts) =>
      exists row,
        length row = 9%nat /\ head row = Some (VStr ts)
        /\ w' = {| sheet := (sheet w ++ [map (cell_text L) row])%list;
                   trace := (trace w ++ logging_trace cfg row)%list |}
  | _ =>
      sheet w' = sheet w
      /\ (trace w' = trace w
          \/ trace w' = (trace w ++ [EOpen (GOOGLE_SHEET_ID cfg) SHEET_TAB_NAME;
                                     EGetAllValues])%list)
  end.

(** Consecutive instants are at least [g] apart. *)
Definition spaced (g : Z) (ts : list Z) : Prop :=
  forall i a b, ts !! i = Some a -> ts !! S i = Some b -> a + g <= b.

(** A log whose timestamp column reads back, cell by cell, as instants on
    whole seconds that are at least the window apart, without a blank
    cell. *)
Definition window_kept (L : libs) (cfg : config) (ws : worksheet) : Prop :=
  exists ts, column_reads L cfg ws ts
    /\ spaced (DUP_WINDOW_SEC cfg * US) ts
    /\ Forall (fun t => t mod US = 0) ts
    /\ Forall (fun c => nonblank c = true) (timestamp_column ws).

(** ** Concrete libraries, configuration and inputs for the examples *)

Module Examples.

Definition digit_val (c : ascii) : option Z :=
  let n := nat_of_ascii c in
  if (48 <=? n)%nat && (n <=? 57)%nat then Some (Z.of_nat n - 48) else None.

Definition num2 (a b : ascii) : option Z :=
  match digit_val a, digit_val b with
  | Some x, Some y => Some (10 * x + y)
  | _, _ => None
  end.

Definition num4 (a b c d : ascii) : option Z :=
  match num2 a b, num2 c d with
  | Some x, Some y => Some (100 * x + y)
  | _, _ => None
  end.

Definition ParserError : exn := LibraryError "ParserError".

(** A date parser that reads the pattern [YYYY-MM-DD HH:MM:SS] and nothing
    else: the least [dateutil] is relied on for. *)
Definition parse_pattern (s : string) : res (option datetime) :=
  match list_ascii_of_string s with
  | [y1; y2; y3; y4; c1; m1; m2; c2; d1; d2; c3; h1; h2; c4; i1; i2; c5; s1; s2] =>
      if (Ascii.eqb c1 "-" && Ascii.eqb c2 "-" && Ascii.eqb c3 " "
          && Ascii.eqb c4 ":" && Ascii.eqb c5 ":")%char
      then
        match num4 y1 y2 y3 y4, num2 m1 m2, num2 d1 d2, num2 h1 h2, num2 i1 i2, num2 s1 s2 with
        | Some y, Some m, Some d, Some hh, Some mm, Some ss =>
            let days := days_from_civil y m d in
            if bool_decide (civil_from_days days = (y, m, d))
               && (hh <? 24) && (mm <? 60) && (ss <? 60)
               && in_range (seconds_of y m d hh mm ss * US)
            then Ok (Some {| wall := seconds_of y m d hh mm ss * US; tz := None |})
            else Raise ParserError
        | _, _, _, _, _, _ => Raise ParserError
        end
      else Raise ParserError
  | _ => Raise ParserError
  end.

(** The same with a fraction of six digits after the seconds
    ([YYYY-MM-DD HH:MM:SS.ffffff]), which [dateutil] reads too. *)
Definition parse_fraction (s : string) : res (option datetime) :=
  match String.get 19 s, list_ascii_of_string (String.substring 20 7 s) with
  | Some "."%char, [f1; f2; f3; f4; f5; f6] =>
      match parse_pattern (String.substring 0 19 s), num2 f1 f2, num2 f3 f4, num2 f5 f6 with
      | Ok (Some d), Some a, Some b, Some c =>
          Ok (Some {| wall := wall d + (10000 * a + 100 * b + c); tz := tz d |})
      | _, _, _, _ => Raise ParserError
      end
  | _, _ => parse_pattern s
  end.

Definition text_of (v : value) : string :=
  match v with
  | VStr s => s
  | VNone => "None"
  | VBool true => "True"
  | VBool false => "False"
  | VInt n => pretty n
  | _ => "?"
  end.

(** The text the sheet shows for an appended value: none for a null, which
    leaves the cell empty. *)
Definition cell_of (v : value) : string :=
  match v with
  | VNone => ""
  | _ => text_of v
  end.

Definition the_libs : libs :=
  {| dateparser_parse := parse_pattern;
     str_of := text_of;
     system_zone := UTC;
     cell_text := cell_of |}.

(** The same with a [Z] after the seconds ([YYYY-MM-DD HH:MM:SSZ]), which
    [dateutil] reads as a time in UTC, tagged with its own [tzutc]. *)
Definition parse_zulu (s : string) : res (option datetime) :=
  match String.get 19 s, String.length s with
  | Some "Z"%char, 20%nat =>
      match parse_pattern (String.substring 0 19 s) with
      | Ok (Some d) =>
          Ok (Some {| wall := wall d; tz := Some {| zone := "tzutc"; utcoffset := 0 |} |})
      | r => r
      end
  | _, _ => parse_pattern s
  end.

(** The same libraries with the parser that reads fractions of a second. *)
Definition the_libs_with_fractions : libs :=
  {| dateparser_parse := parse_fraction;
     str_of := text_of;
     system_zone := UTC;
     cell_text := cell_of |}.

(** The same libraries with the parser that reads times in UTC. *)
Definition the_libs_with_zulu : libs :=
  {| dateparser_parse := parse_zulu;
     str_of := text_of;
     system_zone := UTC;
     cell_text := cell_of |}.

Definition config_with (z : tzone) (window : Z) : config :=
  {| TZ := z;
     GOOGLE_SHEET_ID := "sheet-id";
     GOOGLE_SERVICE_ACCOUNT_FILE := "{...}";
     WCOM_API_KEY := "key";
     STATION_ID := "ISTATION1";
     DUP_WINDOW_SEC := window |}.

Definition the_config : config := config_with SAST 60.

(** The datetime with the given clock reading, tagged with the zone and the
    offset given. *)
Definition at_zone (z : string) (off y m d hh mm ss : Z) : datetime :=
  {| wall := seconds_of y m d hh mm ss * US;
     tz := Some {| zone := z; utcoffset := off |} |}.

Definition header : list string :=
  [ "Timestamp"; "Temperature"; "Wind Speed"; "Wind Gust"; "Wind Direction";
    "Rain Rate"; "Total Rain"; "Pressure"; "Humidity" ].

(** A 200 response whose body decodes to [data]. *)
Definition ok_response (body : string) (data : value) : Response :=
  {| status_code := 200; text := body; json := Ok data |}.

Definition observation (time : string) : value :=
  VDict (<["obsTimeLocal" := VStr time]>
        (<["winddir" := VInt 180]>
        (<["humidity" := VInt 55]>
        (<["metric" := VDict (<["temp" := VInt 21]> (<["pressure" := VInt 1013]> ∅))]> ∅)))).

Definition response_with (time : string) : Response :=
  ok_response "{...}" (VDict (<["observations" := VList [observation time]]> ∅)).

(** An observation whose temperature member is present and null, as the
    service sends it for a sensor that reports nothing. *)
Definition observation_without_reading (time : string) : value :=
  VDict (<["obsTimeLocal" := VStr time]>
        (<["winddir" := VInt 180]>
        (<["humidity" := VInt 55]>
        (<["metric" := VDict (<["temp" := VNone]> (<["pressure" := VInt 1013]> ∅))]> ∅)))).

Definition response_without_reading (time : string) : Response :=
  ok_response "{...}"
    (VDict (<["observations" := VList [observation_without_reading time]]> ∅)).

Definition fresh_world (ws : worksheet) : world := {| sheet := ws; trace := [] |}.

End Examples.
Import Examples.

(** * Properties *)

(** ** The duplicate guard *)

Lemma round_half_even_ge num den X :
  0 < den -> X * den <= num -> X <= round_half_even num den.
Proof.
  intros Hden Hx. unfold round_half_even.
  assert (Hq : X <= num / den) by (apply Z.div_le_lower_bound; lia).
  repeat match goal with |- context [if ?b then _ else _] => destruct b end; lia.
Qed.

Lemma round_half_even_lt num den X :
  0 < den -> 2 * num < (2 * X - 1) * den -> round_half_even num den < X.
Proof.
  intros Hden Hx. unfold round_half_even.
  pose proof (Z.div_mod num den ltac:(lia)) as Hdm.
  pose proof (Z.mod_pos_bound num den Hden) as Hr.
  set (q := num / den) in *. set (r := num mod den) in *.
  assert (Hq : q < X) by nia.
  destruct (Z.ltb_spec (2 * r) den) as [H1 | H1]; [lia |].
  assert (q + 1 < X) by nia.
  repeat match goal with |- context [if ?b then _ else _] => destruct b end; lia.
Qed.

Lemma binade_lower n m :
  0 < n -> 0 < m -> 0 <= binade n m -> m * 2 ^ binade n m <= n.
Proof.
  intros Hn Hm. unfold binade.
  set (l := Z.log2 n - Z.log2 m).
  destruct (Z.leb_spec 0 l) as [Hl | Hl].
  - destruct (Z.leb_spec (m * 2 ^ l) n) as [Ht | Ht]; [intros _; exact Ht |].
    intros Hb.
    pose proof (Z.log2_spec n Hn) as [Hn1 _].
    pose proof (Z.log2_spec m Hm) as [_ Hm2].
    pose proof (Z.log2_nonneg m) as Hlm.
    assert (Hpow : 2 ^ Z.succ (Z.log2 m) * 2 ^ (l - 1) = 2 ^ Z.log2 n).
    { rewrite <- Z.pow_add_r by lia. f_equal. lia. }
    assert (0 < 2 ^ (l - 1)) by (apply Z.pow_pos_nonneg; lia).
    nia.
  - destruct (m <=? n * 2 ^ (- l)); intros Hb; lia.
Qed.

(** Up to a window of 2^34 seconds the rounding of [total_seconds] does not
    show: the double of a positive number of microseconds is below the
    window exactly when the microseconds are.  (Below 2^34 two neighbouring
    doubles are less than two microseconds apart.) *)
Lemma true_divide_le (d W : Z) :
  0 < d -> W <= 2 ^ 34 ->
  Qle_bool (inject_Z W) (true_divide d 1000000) = (W * 1000000 <=? d).
Proof.
  intros Hd HW. unfold true_divide, nearest_double.
  destruct (Z.eqb_spec d 0) as [-> | _]; [lia |].
  rewrite Z.abs_eq by lia. rewrite (Z.sgn_pos d) by lia.
  pose proof (binade_lower d 1000000 Hd ltac:(lia)) as Hlow.
  set (b := binade d 1000000) in *.
  unfold double_value. cbn [fst snd].
  destruct (Z.leb_spec 0 (b - 52)) as [Hk | Hk].
  - specialize (Hlow ltac:(lia)).
    assert (Hp : 0 < 2 ^ (b - 52)) by (apply Z.pow_pos_nonneg; lia).
    assert (Hb : 2 ^ b = 2 ^ 52 * 2 ^ (b - 52)).
    { rewrite <- Z.pow_add_r by lia. f_equal. lia. }
    assert (Hm : 2 ^ 52 <= round_half_even d (1000000 * 2 ^ (b - 52))).
    { apply round_half_even_ge; nia. }
    unfold Qle_bool, inject_Z. cbn [Qnum Qden]. rewrite !Z.mul_1_r, Z.mul_1_l.
    assert (H34 : 2 ^ 34 < 2 ^ 52) by reflexivity.
    destruct (Z.leb_spec W (round_half_even d (1000000 * 2 ^ (b - 52)) * 2 ^ (b - 52)));
      destruct (Z.leb_spec (W * 1000000) d); try reflexivity; nia.
  - assert (Hp : 0 < 2 ^ (- (b - 52))) by (apply Z.pow_pos_nonneg; lia).
    set (P := 2 ^ (- (b - 52))) in *.
    unfold Qle_bool, inject_Z. cbn [Qnum Qden]. rewrite Z2Pos.id by exact Hp.
    rewrite Z.mul_1_l, Z.mul_1_r.
    destruct (Z.leb_spec (W * 1000000) d) as [Hge | Hlt].
    + apply Z.leb_le. apply round_half_even_ge; nia.
    + apply Z.leb_gt. apply round_half_even_lt; [lia |].
      assert (Hb33 : b <= 33).
      { destruct (Z_le_gt_dec b 33) as [? | Hb]; [assumption | exfalso].
        specialize (Hlow ltac:(lia)).
        assert (2 ^ 34 <= 2 ^ b) by (apply Z.pow_le_mono_r; lia). nia. }
      assert (HP : 2 ^ 19 <= P) by (apply Z.pow_le_mono_r; lia).
      change (2 ^ 19) with 524288 in HP. nia.
Qed.

Lemma too_soon_test (W d : Z) :
  0 < d -> W <= 2 ^ 34 ->
  negb (Qle_bool (inject_Z W) (true_divide d 1000000)) = (d <? W * US).
Proof.
  intros Hd HW. rewrite (true_divide_le d W Hd HW). unfold US.
  destruct (Z.leb_spec (W * 1000000) d), (Z.ltb_spec d (W * 1000000)); simpl; lia.
Qed.

(** A difference the double is not below a window is not below a smaller
    one; and a difference of less than a second is below every window of a
    second or more. *)
Lemma window_test_mono (W W' : Z) (q : Q) :
  W <= W' -> Qle_bool (inject_Z W') q = true -> Qle_bool (inject_Z W) q = true.
Proof.
  intros HW Hq. apply Qle_bool_iff. apply Qle_bool_iff in Hq.
  apply Qle_trans with (inject_Z W'); [| exact Hq]. now rewrite <- Zle_Qle.
Qed.

Lemma too_soon_within_a_second (W d : Z) :
  1 <= W -> 0 < d -> d < US ->
  negb (Qle_bool (inject_Z W) (true_divide d 1000000)) = true.
Proof.
  intros HW Hd Hlt. apply negb_true_iff.
  destruct (Qle_bool (inject_Z W) (true_divide d 1000000)) eqn:Hq; [| reflexivity].
  apply (window_test_mono 1 W _ HW) in Hq.
  rewrite (true_divide_le d 1 Hd) in Hq by (change (2 ^ 34) with 17179869184; lia).
  apply Z.leb_le in Hq. unfold US in Hlt. lia.
Qed.

(** What the guard computes. *)
Lemma duplicate_guard_compares cfg obs_ts ts last :
  duplicate_guard cfg obs_ts ts (Some last) =
    if instant obs_ts <=? instant last then Some (NotNewer ts (strftime last))
    else if negb (Qle_bool (inject_Z (DUP_WINDOW_SEC cfg))
                    (true_divide (instant obs_ts - instant last) 1000000))
         then Some (TooSoon (DUP_WINDOW_SEC cfg) ts)
         else None.
Proof. reflexivity. Qed.

(** The guard on instants, for a window of at most 2^34 seconds. *)
Lemma duplicate_guard_unfold cfg obs_ts ts last :
  DUP_WINDOW_SEC cfg <= 2 ^ 34 ->
  duplicate_guard cfg obs_ts ts (Some last) =
    if instant obs_ts <=? instant last then Some (NotNewer ts (strftime last))
    else if instant obs_ts - instant last <? DUP_WINDOW_SEC cfg * US
         then Some (TooSoon (DUP_WINDOW_SEC cfg) ts)
         else None.
Proof.
  intros HW. rewrite duplicate_guard_compares.
  destruct (Z.leb_spec (instant obs_ts) (instant last)); [reflexivity |].
  now rewrite too_soon_test by lia.
Qed.

(** An observation the guard lets through is newer than the last one. *)
Lemma duplicate_guard_newer cfg obs_ts ts last :
  duplicate_guard cfg obs_ts ts (Some last) = None -> instant last < instant obs_ts.
Proof.
  rewrite duplicate_guard_compares.
  destruct (Z.leb_spec (instant obs_ts) (instant last)); [discriminate | lia].
Qed.

(** What a passing guard says about the two instants. *)
Lemma duplicate_guard_admits cfg obs_ts ts last :
  DUP_WINDOW_SEC cfg <= 2 ^ 34 ->
  duplicate_guard cfg obs_ts ts (Some last) = None <->
  instant last < instant obs_ts /\
  DUP_WINDOW_SEC cfg * US <= instant obs_ts - instant last.
Proof.
  intros HW. rewrite duplicate_guard_unfold by exact HW.
  destruct (Z.leb_spec (instant obs_ts) (instant last));
    [| destruct (Z.ltb_spec (instant obs_ts - instant last) (DUP_WINDOW_SEC cfg * US))];
    split; intros H'; try discriminate; try reflexivity; lia.
Qed.

(** The skips of the guard. *)
Lemma duplicate_guard_message cfg obs_ts ts last msg :
  duplicate_guard cfg obs_ts ts last = Some msg ->
  exists l, last = Some l
    /\ (msg = NotNewer ts (strftime l) \/ msg = TooSoon (DUP_WINDOW_SEC cfg) ts).
Proof.
  destruct last as [l|]; [| discriminate].
  rewrite duplicate_guard_compares.
  destruct (instant obs_ts <=? instant l); [intros [= <-]; eauto |].
  destruct (negb _); [| discriminate].
  intros [= <-]. eauto.
Qed.

(** C1, as the code has it.  For a window of at most 2^34 seconds (some
    544 years): the guard admits when there is no last logged instant;
    otherwise it skips as not-newer when the new instant is not after the
    last one, skips as too-soon when it is after it by strictly less than
    the window, and admits in every other case; with a window of 60 seconds
    an observation exactly 60 seconds after the last one is admitted. *)
Theorem duplicate_guard_decides (cfg : config) (obs_ts : datetime) (ts : string) :
  DUP_WINDOW_SEC cfg <= 2 ^ 34 ->
  duplicate_guard cfg obs_ts ts None = None
  /\ (forall last, instant obs_ts <= instant last ->
        duplicate_guard cfg obs_ts ts (Some last) = Some (NotNewer ts (strftime last)))
  /\ (forall last, instant last < instant obs_ts ->
        instant obs_ts - instant last < DUP_WINDOW_SEC cfg * US ->
        duplicate_guard cfg obs_ts ts (Some last)
          = Some (TooSoon (DUP_WINDOW_SEC cfg) ts))
  /\ (forall last, instant last < instant obs_ts ->
        DUP_WINDOW_SEC cfg * US <= instant obs_ts - instant last ->
        duplicate_guard cfg obs_ts ts (Some last) = None)
  /\ (forall last, DUP_WINDOW_SEC cfg = 60 ->
        instant obs_ts = instant last + 60 * US ->
        duplicate_guard cfg obs_ts ts (Some last) = None).
Proof.
  intros HW. split; [reflexivity |].
  repeat split; intros last; rewrite duplicate_guard_unfold by exact HW.
  - intros Hle. destruct (Z.leb_spec (instant obs_ts) (instant last)); [reflexivity | lia].
  - intros Hlt Hsoon.
    destruct (Z.leb_spec (instant obs_ts) (instant last)); [lia |].
    destruct (Z.ltb_spec (instant obs_ts - instant last) (DUP_WINDOW_SEC cfg * US));
      [reflexivity | lia].
  - intros Hlt Hfar.
    destruct (Z.leb_spec (instant obs_ts) (instant last)); [lia |].
    destruct (Z.ltb_spec (instant obs_ts - instant last) (DUP_WINDOW_SEC cfg * US));
      [lia | reflexivity].
  - intros HW60 Heq. rewrite HW60.
    destruct (Z.leb_spec (instant obs_ts) (instant last)); [unfold US in *; lia |].
    destruct (Z.ltb_spec (instant obs_ts - instant last) (60 * US));
      [lia | reflexivity].
Qed.

Lemma duplicate_guard_decides_example :
  let cfg := Examples.the_config in
  let obs_ts := Examples.at_zone "Africa/Johannesburg" 7200 2024 1 1 10 1 0 in
  let ts := "2024-01-01 10:01:00" in
  duplicate_guard cfg obs_ts ts None = None
  /\ (forall last, instant obs_ts <= instant last ->
        duplicate_guard cfg obs_ts ts (Some last) = Some (NotNewer ts (strftime last)))
  /\ (forall last, instant last < instant obs_ts ->
        instant obs_ts - instant last < DUP_WINDOW_SEC cfg * US ->
        duplicate_guard cfg obs_ts ts (Some last)
          = Some (TooSoon (DUP_WINDOW_SEC cfg) ts))
  /\ (forall last, instant last < instant obs_ts ->
        DUP_WINDOW_SEC cfg * US <= instant obs_ts - instant last ->
        duplicate_guard cfg obs_ts ts (Some last) = None)
  /\ (forall last, DUP_WINDOW_SEC cfg = 60 ->
        instant obs_ts = instant last + 60 * US ->
        duplicate_guard cfg obs_ts ts (Some last) = None).
Proof.
  intros cfg obs_ts ts.
  apply (duplicate_guard_decides cfg obs_ts ts).
  vm_compute. discriminate.
Defined.

(** C1 as stated fails for a larger window.  With a window of 2^34 + 1
    seconds, an observation one microsecond short of the window after the
    last logged instant is admitted: [total_seconds] rounds the difference
    to the window itself. *)
Lemma guard_admits_within_a_huge_window :
  let cfg := Examples.config_with SAST 17179869185 in
  let last := Examples.at_zone "Africa/Johannesburg" 7200 2000 1 1 0 0 0 in
  let obs_ts := {| wall := wall last + 17179869185 * US - 1; tz := tz last |} in
  in_range (wall obs_ts) = true
  /\ instant last < instant obs_ts
  /\ instant obs_ts - instant last < DUP_WINDOW_SEC cfg * US
  /\ duplicate_guard cfg obs_ts (strftime obs_ts) (Some last) = None
  /\ duplicate_guard cfg obs_ts (strftime obs_ts) (Some last)
     <> Some (TooSoon (DUP_WINDOW_SEC cfg) (strftime obs_ts)).
Proof. vm_compute. repeat split; discriminate. Qed.

(** The example of the specification: last logged 2024-01-01 10:00:00,
    window 60 s. *)
Example guard_at_the_boundary :
  let last := Examples.at_zone "Africa/Johannesburg" 7200 2024 1 1 10 0 0 in
  let guard t := duplicate_guard Examples.the_config t (strftime t) (Some last) in
  guard (Examples.at_zone "Africa/Johannesburg" 7200 2024 1 1 10 0 45)
    = Some (TooSoon 60 "2024-01-01 10:00:45")
  /\ guard (Examples.at_zone "Africa/Johannesburg" 7200 2024 1 1 10 1 0) = None
  /\ guard (Examples.at_zone "Africa/Johannesburg" 7200 2024 1 1 10 0 0)
    = Some (NotNewer "2024-01-01 10:00:00" "2024-01-01 10:00:00").
Proof. vm_compute. repeat split. Qed.

(** ** The steps of a run *)

Lemma get_last_logged_timestamp_run L cfg w :
  get_last_logged_timestamp L cfg w =
    (match last_logged L cfg (sheet w) with Ok o => Next o | Raise e => Crash e end,
     {| sheet := sheet w; trace := (trace w ++ [EGetAllValues])%list |}).
Proof.
  unfold get_last_logged_timestamp, get_all_values, last_logged, bind, emit, ret, lift; simpl.
  destruct (length (sheet w) <? 2)%nat; [reflexivity |].
  destruct (scan_rows L cfg (rev (tl (sheet w)))); reflexivity.
Qed.

(** A run on an observation either leaves the sheet alone and appends
    nothing, or goes through every step and appends one row. *)
Lemma log_observation_cases L cfg obs w s w' :
  log_observation L cfg obs w = (s, w') ->
  (sheet w' = sheet w /\
   (trace w' = trace w \/
    trace w' = (trace w ++ [EOpen (GOOGLE_SHEET_ID cfg) SHEET_TAB_NAME; EGetAllValues])%list))
  \/ exists v d obs_ts last row,
       get obs "obsTimeLocal" VNone = Ok v /\ truthy v = true /\
       parse_any_datetime L cfg (Value v) = Ok (Some d) /\
       astimezone (system_zone L) (TZ cfg) d = Ok obs_ts /\
       last_logged L cfg (sheet w) = Ok last /\
       duplicate_guard cfg obs_ts (strftime obs_ts) last = None /\
       map_row (strftime obs_ts) obs = Ok row /\
       s = Done (Logged (strftime obs_ts)) /\
       w' = {| sheet := (sheet w ++ [map (cell_text L) row])%list;
               trace := (trace w ++ logging_trace cfg row)%list |}.
Proof.
  unfold log_observation, bind, lift, done, open_worksheet, emit, append_row.
  destruct (get obs "obsTimeLocal" VNone) as [v|e] eqn:Hv;
    [| intros [= <- <-]; left; auto].
  destruct (truthy v) eqn:Htv; simpl;
    [| intros [= <- <-]; left; auto].
  destruct (parse_any_datetime L cfg (Value v)) as [[d|]|e] eqn:Hp;
    [| intros [= <- <-]; left; auto | intros [= <- <-]; left; auto].
  destruct (astimezone (system_zone L) (TZ cfg) d) as [obs_ts|e] eqn:Ha;
    [| intros [= <- <-]; left; auto].
  rewrite get_last_logged_timestamp_run; simpl.
  destruct (last_logged L cfg (sheet w)) as [last|e] eqn:Hl;
    [| intros [= <- <-]; left; split; [reflexivity | right; now rewrite <- app_assoc]].
  destruct (duplicate_guard cfg obs_ts (strftime obs_ts) last) as [msg|] eqn:Hg;
    [intros [= <- <-]; left; split; [reflexivity | right; now rewrite <- app_assoc] |].
  destruct (map_row (strftime obs_ts) obs) as [row|e] eqn:Hr;
    [| intros [= <- <-]; left; split; [reflexivity | right; now rewrite <- app_assoc]].
  intros [= <- <-]. right.
  exists v, d, obs_ts, last, row. repeat split; try assumption.
  simpl. unfold logging_trace. now rewrite <- !app_assoc.
Qed.

Lemma classify_world r w : exists s, classify r w = (s, w).
Proof.
  unfold classify, bind, lift, done, ret.
  destruct (safe_fetch_current r) as [[status data] raw].
  destruct (status =? 204); [eauto |].
  destruct (negb (status =? 200) || negb (truthy data)); [eauto |].
  destruct (get data "observations" VNone) as [o|e]; [| eauto].
  destruct (negb (truthy (py_or o (VList [])))); [eauto |].
  destruct (getitem0 (py_or o (VList []))); eauto.
Qed.

Lemma main_cases L cfg r w s w' :
  main L cfg r w = (s, w') ->
  (sheet w' = sheet w /\
   (trace w' = trace w \/
    trace w' = (trace w ++ [EOpen (GOOGLE_SHEET_ID cfg) SHEET_TAB_NAME; EGetAllValues])%list))
  \/ exists obs v d obs_ts last row,
       require_env cfg = Ok tt /\ classify r w = (Next obs, w) /\
       get obs "obsTimeLocal" VNone = Ok v /\ truthy v = true /\
       parse_any_datetime L cfg (Value v) = Ok (Some d) /\
       astimezone (system_zone L) (TZ cfg) d = Ok obs_ts /\
       last_logged L cfg (sheet w) = Ok last /\
       duplicate_guard cfg obs_ts (strftime obs_ts) last = None /\
       map_row (strftime obs_ts) obs = Ok row /\
       s = Done (Logged (strftime obs_ts)) /\
       w' = {| sheet := (sheet w ++ [map (cell_text L) row])%list;
               trace := (trace w ++ logging_trace cfg row)%list |}.
Proof.
  unfold main, bind, lift.
  destruct (require_env cfg) as [[]|e] eqn:Henv; [| intros [= <- <-]; left; auto].
  destruct (classify_world r w) as [sc Hc]. rewrite Hc.
  destruct sc as [obs|msg|e]; [| intros [= <- <-]; left; auto | intros [= <- <-]; left; auto].
  intros Hlog. apply log_observation_cases in Hlog as [Hskip | Happ]; [left; exact Hskip |].
  destruct Happ as (v & d & obs_ts & last & row & H).
  right. exists obs, v, d, obs_ts, last, row. tauto.
Qed.

(** The classification does not look at the world. *)
Lemma classify_frame r w w' s : classify r w = (s, w) -> classify r w' = (s, w').
Proof.
  unfold classify, bind, lift, done, ret.
  destruct (safe_fetch_current r) as [[status data] raw].
  destruct (status =? 204); [now intros [= <-] |].
  destruct (negb (status =? 200) || negb (truthy data)); [now intros [= <-] |].
  destruct (get data "observations" VNone) as [o|e]; [| now intros [= <-]].
  destruct (negb (truthy (py_or o (VList [])))); [now intros [= <-] |].
  destruct (getitem0 (py_or o (VList []))); now intros [= <-].
Qed.

(** The datetime a run went on with is the observation time of its
    response. *)
Lemma observation_time_of_run L cfg r w obs v d obs_ts :
  classify r w = (Next obs, w) ->
  get obs "obsTimeLocal" VNone = Ok v -> truthy v = true ->
  parse_any_datetime L cfg (Value v) = Ok (Some d) ->
  astimezone (system_zone L) (TZ cfg) d = Ok obs_ts ->
  observation_time L cfg r = Some obs_ts.
Proof.
  intros Hc Hv Htv Hp Ha. unfold observation_time.
  rewrite (classify_frame r w _ _ Hc), Hv, Htv, Hp, Ha. reflexivity.
Qed.

(** ** The row mapper *)

Lemma map_row_of_dict ts o m :
  metric_of o = Some m -> map_row ts (VDict o) = Ok (mapped_row ts o m).
Proof.
  unfold metric_of, map_row, mapped_row, field, py_or; simpl.
  destruct (o !! "metric") as [v|] eqn:Hm; simpl.
  - destruct (truthy v) eqn:Htv.
    + destruct v; try discriminate. now intros [= ->].
    + now intros [= <-].
  - now intros [= <-].
Qed.

Lemma map_row_returns ts obs row :
  map_row ts obs = Ok row ->
  exists o m, obs = VDict o /\ metric_of o = Some m /\ row = mapped_row ts o m.
Proof.
  destruct obs as [| | | | | |o]; try discriminate.
  intros Hrow. exists o.
  destruct (metric_of o) as [m|] eqn:Hm.
  - exists m. rewrite (map_row_of_dict ts o m Hm) in Hrow. now injection Hrow as <-.
  - exfalso. revert Hrow Hm. unfold metric_of, map_row, py_or; simpl.
    destruct (o !! "metric") as [v|]; simpl; [| discriminate].
    destruct (truthy v); [| discriminate].
    destruct v; discriminate.
Qed.

(** C5 on an observation with a null member.  For the response
    {"observations": [{"obsTimeLocal": "2024-01-01 10:00:00", "winddir": 180,
    "humidity": 55, "metric": {"temp": null, "pressure": 1013}}]} the run
    logs, and the row it appends has null in the temperature column, where
    the mapper of the specification has the empty value: [m.get("temp", "")]
    gives the default for a member that is missing only, unlike
    [obs.get("metric") or {}] on the line above it, which takes a null
    member for a missing one.  The same observation without the member gives
    the empty string. *)
Theorem null_member_is_logged_as_null :
  let ts := "2024-01-01 10:00:00" in
  let row := [ VStr ts; VNone; VStr ""; VStr ""; VInt 180;
               VStr ""; VStr ""; VInt 1013; VInt 55 ] in
  main the_libs the_config (response_without_reading ts) (fresh_world [header])
  = (Done (Logged ts),
     {| sheet := [ header; map (cell_text the_libs) row ];
        trace := logging_trace the_config row |})
  /\ map_row ts (observation_without_reading ts) = Ok row
  /\ nth_error row 1 = Some VNone
  /\ map_row ts
       (VDict (<["obsTimeLocal" := VStr ts]>
              (<["winddir" := VInt 180]>
              (<["humidity" := VInt 55]>
              (<["metric" := VDict (<["pressure" := VInt 1013]> ∅)]> ∅)))))
     = Ok [ VStr ts; VStr ""; VStr ""; VStr ""; VInt 180;
            VStr ""; VStr ""; VInt 1013; VInt 55 ].
Proof. vm_compute. repeat split. Qed.

(** A run that logs, computed: the row and the three store operations. *)
Example a_logged_row :
  let row := [ VStr "2024-01-01 10:00:00"; VInt 21; VStr ""; VStr ""; VInt 180;
               VStr ""; VStr ""; VInt 1013; VInt 55 ] in
  main the_libs the_config (response_with "2024-01-01 10:00:00") (fresh_world [header])
  = (Done (Logged "2024-01-01 10:00:00"),
     {| sheet := [ header;
                   ["2024-01-01 10:00:00"; "21"; ""; ""; "180"; ""; ""; "1013"; "55"] ];
        trace := logging_trace the_config row |}).
Proof. vm_compute. reflexivity. Qed.

(** C10. When the metric member of the observation is absent or null, the
    mapping does not fail: the six columns read from the metric
    sub-structure are empty strings, the same row as for an observation
    whose metric sub-structure is an object without any field. *)
Theorem null_metric_gives_empty_columns (ts : string) (o : gmap string value) :
  o !! "metric" = None \/ o !! "metric" = Some VNone ->
  map_row ts (VDict o) =
    Ok [ VStr ts; VStr ""; VStr ""; VStr ""; field o "winddir";
         VStr ""; VStr ""; VStr ""; field o "humidity" ]
  /\ map_row ts (VDict o) = map_row ts (VDict (<["metric" := VDict ∅]> o)).
Proof.
  intros Hm.
  assert (Ho : metric_of o = Some ∅).
  { unfold metric_of. destruct Hm as [-> | ->]; reflexivity. }
  assert (Ho' : metric_of (<["metric" := VDict ∅]> o) = Some ∅).
  { unfold metric_of. now rewrite lookup_insert_eq. }
  rewrite (map_row_of_dict ts _ _ Ho), (map_row_of_dict ts _ _ Ho').
  unfold mapped_row, field. rewrite !lookup_insert_ne by discriminate.
  split; reflexivity.
Qed.

Lemma null_metric_gives_empty_columns_example :
  let o : gmap string value :=
    <["metric" := VNone]> (<["winddir" := VInt 180]> (<["obsTimeLocal" := VStr "2024-01-01 10:00:00"]> ∅)) in
  map_row "2024-01-01 10:00:00" (VDict o) =
    Ok [ VStr "2024-01-01 10:00:00"; VStr ""; VStr ""; VStr ""; field o "winddir";
         VStr ""; VStr ""; VStr ""; field o "humidity" ]
  /\ map_row "2024-01-01 10:00:00" (VDict o)
     = map_row "2024-01-01 10:00:00" (VDict (<["metric" := VDict ∅]> o)).
Proof.
  intros o. apply (null_metric_gives_empty_columns "2024-01-01 10:00:00" o).
  right. reflexivity.
Defined.

(** ** The classification of the response *)

Lemma slice_to_length n s : (String.length (slice_to n s) <= n)%nat.
Proof.
  revert s. induction n as [|n IH]; intros [|c s]; simpl; try lia.
  specialize (IH s). lia.
Qed.

Lemma slice_to_prefix n s : String.prefix (slice_to n s) s = true.
Proof.
  revert s. induction n as [|n IH]; intros [|c s]; simpl; try reflexivity.
  destruct (Ascii.ascii_dec c c); [apply IH | congruence].
Qed.

Lemma safe_fetch_current_200 r :
  status_code r = 200 ->
  safe_fetch_current r =
    (200, (if String.eqb (strip (text r)) "" then VNone else try_except (json r) VNone),
     text r).
Proof.
  unfold safe_fetch_current. intros ->. simpl.
  destruct (String.eqb (strip (text r)) ""); reflexivity.
Qed.



(** The skips of the classification, computed. *)
Example classification_examples :
  let w := fresh_world [header] in
  let undecodable := Raise (LibraryError "JSONDecodeError") in
  main the_libs the_config {| status_code := 204; text := ""; json := undecodable |} w
    = (Done NoNewData, w)
  /\ main the_libs the_config
       {| status_code := 500; text := "Internal Server Error"; json := undecodable |} w
     = (Done (ApiError 500 "Internal Server Error"), w)
  /\ main the_libs the_config
       {| status_code := 200; text := "<html>"; json := undecodable |} w
     = (Done (ApiError 200 "<html>"), w)
  /\ main the_libs the_config
       (ok_response "{...}" (VDict (<["observations" := VList []]> ∅))) w
     = (Done NoObservations, w).
Proof. vm_compute. repeat split. Qed.

(** ** A run without a usable timestamp *)



(** Both runs, computed. *)
Example runs_without_timestamp :
  let w := fresh_world [header; ["2024-01-01 10:00:00"]] in
  main the_libs the_config (response_with "n/a") w
    = (Done (UnparsableObsTime (VStr "n/a")), w)
  /\ main the_libs the_config (response_with "") w = (Done MissingObsTime, w).
Proof. vm_compute. split; reflexivity. Qed.

(** ** The timestamp normalizer *)

Lemma parse_any_datetime_value L cfg v :
  parse_any_datetime L cfg (Value v) =
    if is_none (Value v) || eq_empty_str (Value v) then Ok None
    else Ok (try_except
               (res_bind (dateparser_parse L (str L v)) (fun p =>
                  match p with
                  | None => Ok None
                  | Some dt => res_bind (to_TZ L cfg dt) (fun d' => Ok (Some d'))
                  end))
               None).
Proof. reflexivity. Qed.

Lemma parse_any_datetime_value_ok L cfg v :
  exists o, parse_any_datetime L cfg (Value v) = Ok o.
Proof.
  rewrite parse_any_datetime_value.
  destruct (is_none (Value v) || eq_empty_str (Value v)); eauto.
Qed.

Lemma convert_ok z d off r :
  convert z d off = Ok r ->
  let u := wall d - off * US in
  in_range (wall r) = true
  /\ wall r = u + fromutc_offset z (u / US) * US
  /\ tz r = Some {| zone := zone_name z; utcoffset := fromutc_offset z (u / US) |}.
Proof.
  unfold convert.
  destruct (negb (in_range _)); [discriminate |].
  destruct (negb (in_range _)) eqn:Hr; [discriminate |].
  intros [= <-]. simpl. apply negb_false_iff in Hr. auto.
Qed.

Lemma astimezone_cases sys z d i r :
  tz d = Some i ->
  astimezone sys z d = Ok r ->
  (i = tzinfo_of z /\ r = d)
  \/ (i <> tzinfo_of z /\ convert z d (utcoffset i) = Ok r).
Proof.
  unfold astimezone. intros ->.
  destruct (bool_decide_reflect (i = tzinfo_of z)) as [Hi | Hi].
  - intros [= <-]. left. auto.
  - intros Hc. right. auto.
Qed.

Lemma astimezone_aware sys z d i r :
  tz d = Some i ->
  astimezone sys z d = Ok r ->
  instant r = instant d
  /\ exists o, tz r = Some {| zone := zone_name z; utcoffset := o |}.
Proof.
  intros Hi Ha. destruct (astimezone_cases _ _ _ _ _ Hi Ha) as [[-> ->] | [_ Hc]].
  - split; [reflexivity |]. rewrite Hi. unfold tzinfo_of. eauto.
  - apply convert_ok in Hc as (_ & Hw & Ht). split; [| eauto].
    unfold instant. rewrite Ht, Hi, Hw. simpl. lia.
Qed.

Lemma to_TZ_aware L cfg d d' :
  to_TZ L cfg d = Ok d' ->
  exists o, tz d' = Some {| zone := zone_name (TZ cfg); utcoffset := o |}.
Proof.
  unfold to_TZ, localize.
  destruct (tz d) as [i|] eqn:Htz.
  - intros Ha. now apply (astimezone_aware _ _ _ _ _ Htz) in Ha as [_ Ho].
  - destruct (localize_offset (TZ cfg) (wall d / US)) as [o|]; [| discriminate].
    intros [= <-]. simpl. eauto.
Qed.

(** What [parse_any_datetime] returns was made by [to_TZ] from a datetime:
    the argument itself, or what the date parser read in its text. *)
Lemma parse_any_datetime_source L cfg a r :
  parse_any_datetime L cfg a = Ok (Some r) ->
  exists src,
    (a = Datetime src
     \/ exists v, a = Value v /\ dateparser_parse L (str L v) = Ok (Some src))
    /\ to_TZ L cfg src = Ok r.
Proof.
  destruct a as [v|d].
  - rewrite parse_any_datetime_value.
    destruct (is_none _ || eq_empty_str _); [discriminate |].
    destruct (dateparser_parse L (str L v)) as [[src|]|e] eqn:Hp; simpl; try discriminate.
    destruct (to_TZ L cfg src) as [d'|e] eqn:Ht; simpl; try discriminate.
    intros [= <-]. exists src. split; [right; exists v; auto | exact Ht].
  - unfold parse_any_datetime; simpl.
    destruct (to_TZ L cfg d) as [d'|e] eqn:Ht; simpl; [| discriminate].
    intros [= <-]. exists d. auto.
Qed.

(** The datetimes the script compares are aware. *)
Lemma parse_any_datetime_aware L cfg a r :
  parse_any_datetime L cfg a = Ok (Some r) ->
  exists o, tz r = Some {| zone := zone_name (TZ cfg); utcoffset := o |}.
Proof.
  intros H. apply parse_any_datetime_source in H as (src & _ & Ht).
  now apply to_TZ_aware in Ht.
Qed.

(** C7, as the code has it.  On every input that is not an
    already-structured instant (absent, empty, text, any other decoded
    value) the normalizer returns an instant or no result and raises
    nothing: absent or empty input gives no result, and so does every
    failure of the parse or of the conversion that follows it.  On an
    already-structured instant it returns the converted instant whenever the
    conversion succeeds. *)
Theorem normalizer_never_raises_on_text (L : libs) (cfg : config) (v : value) :
  (exists o, parse_any_datetime L cfg (Value v) = Ok o)
  /\ (v = VNone \/ v = VStr "" -> parse_any_datetime L cfg (Value v) = Ok None)
  /\ ((exists e, dateparser_parse L (str L v) = Raise e)
      \/ dateparser_parse L (str L v) = Ok None
      \/ (exists dt e, dateparser_parse L (str L v) = Ok (Some dt)
                       /\ to_TZ L cfg dt = Raise e) ->
      parse_any_datetime L cfg (Value v) = Ok None)
  /\ (forall d d', to_TZ L cfg d = Ok d' ->
        parse_any_datetime L cfg (Datetime d) = Ok (Some d')).
Proof.
  split; [apply parse_any_datetime_value_ok |].
  rewrite parse_any_datetime_value. repeat split.
  - intros [-> | ->]; reflexivity.
  - intros Hfail. destruct (is_none (Value v) || eq_empty_str (Value v)); [reflexivity |].
    destruct Hfail as [[e ->] | [-> | (dt & e & -> & Ht)]]; simpl; try reflexivity.
    now rewrite Ht.
  - intros d d' Ht. unfold parse_any_datetime; simpl. now rewrite Ht.
Qed.

(** No result for absent and empty input, for text that does not parse and
    for a number. *)
Example normalizer_examples :
  parse_any_datetime the_libs the_config (Value VNone) = Ok None
  /\ parse_any_datetime the_libs the_config (Value (VStr "")) = Ok None
  /\ parse_any_datetime the_libs the_config (Value (VStr "n/a")) = Ok None
  /\ parse_any_datetime the_libs the_config (Value (VInt 5)) = Ok None.
Proof. vm_compute. repeat split. Qed.

(** C7 as stated fails on an already-structured instant: the conversion of
    9999-12-31 23:30 UTC to the clock of UTC+2 leaves the range of
    datetimes, and the [OverflowError] reaches the caller (lines 64-67 are
    outside the [try]). *)
Lemma normalizer_raises_on_a_late_instant :
  parse_any_datetime the_libs the_config (Datetime (at_zone "UTC" 0 9999 12 31 23 30 0))
  = Raise OverflowError.
Proof. vm_compute. reflexivity. Qed.

(** C8. A successful normalization started from a datetime [src] (the
    argument, or what the parser read).  When [src] carries no timezone the
    result has the reading of [src] unchanged and is tagged with the
    configured zone.  When [src] carries one the result is the same instant
    in the configured zone: [src] itself if its tzinfo already is the
    configured zone object, and otherwise the reading of that instant on the
    clock of the configured zone.  Either way the result is expressed in the
    configured zone. *)
Theorem normalizer_result_in_configured_zone (L : libs) (cfg : config)
    (a : any) (r : datetime) :
  parse_any_datetime L cfg a = Ok (Some r) ->
  exists src,
    (a = Datetime src
     \/ exists v, a = Value v /\ dateparser_parse L (str L v) = Ok (Some src))
    /\ (tz src = None ->
          wall r = wall src
          /\ exists o, localize_offset (TZ cfg) (wall src / US) = Ok o
               /\ tz r = Some {| zone := zone_name (TZ cfg); utcoffset := o |})
    /\ (forall i, tz src = Some i ->
          instant r = instant src
          /\ (i = tzinfo_of (TZ cfg) -> r = src)
          /\ (i <> tzinfo_of (TZ cfg) ->
                wall r = instant src + fromutc_offset (TZ cfg) (instant src / US) * US
                /\ tz r = Some {| zone := zone_name (TZ cfg);
                                  utcoffset := fromutc_offset (TZ cfg) (instant src / US) |}))
    /\ (exists o, tz r = Some {| zone := zone_name (TZ cfg); utcoffset := o |}).
Proof.
  intros Hp. pose proof (parse_any_datetime_aware L cfg a r Hp) as Haware.
  apply parse_any_datetime_source in Hp as (src & Hsrc & Ht).
  exists src. split; [exact Hsrc |]. split; [| split; [| exact Haware]].
  - intros Hn. revert Ht. unfold to_TZ, localize. rewrite Hn.
    destruct (localize_offset (TZ cfg) (wall src / US)) as [o|]; [| discriminate].
    intros [= <-]. split; [reflexivity |]. exists o. auto.
  - intros i Hi. revert Ht. unfold to_TZ. rewrite Hi. intros Ha.
    split; [now apply (astimezone_aware _ _ _ _ _ Hi) in Ha |].
    destruct (astimezone_cases _ _ _ _ _ Hi Ha) as [[Heq ->] | [Hne Hc]].
    + split; [reflexivity | contradiction].
    + split; [contradiction |]. intros _.
      apply convert_ok in Hc as (_ & Hw & Htz).
      unfold instant. rewrite Hi. auto.
Qed.

Lemma normalizer_result_in_configured_zone_example :
  let a := Value (VStr "2024-01-01 10:00:00") in
  let r := at_zone "Africa/Johannesburg" 7200 2024 1 1 10 0 0 in
  exists src,
    (a = Datetime src
     \/ exists v, a = Value v /\ dateparser_parse the_libs (str the_libs v) = Ok (Some src))
    /\ (tz src = None ->
          wall r = wall src
          /\ exists o, localize_offset (TZ the_config) (wall src / US) = Ok o
               /\ tz r = Some {| zone := zone_name (TZ the_config); utcoffset := o |})
    /\ (forall i, tz src = Some i ->
          instant r = instant src
          /\ (i = tzinfo_of (TZ the_config) -> r = src)
          /\ (i <> tzinfo_of (TZ the_config) ->
                wall r = instant src + fromutc_offset (TZ the_config) (instant src / US) * US
                /\ tz r = Some {| zone := zone_name (TZ the_config);
                                  utcoffset := fromutc_offset (TZ the_config) (instant src / US) |}))
    /\ (exists o, tz r = Some {| zone := zone_name (TZ the_config); utcoffset := o |}).
Proof.
  intros a r.
  apply (normalizer_result_in_configured_zone the_libs the_config a r).
  vm_compute. reflexivity.
Defined.

(** ** The log reader *)

Lemma nonblank_empty : nonblank "" = false.
Proof. reflexivity. Qed.

(** The bottom-up loop stops at the last non-blank cell of the column. *)
Lemma scan_rows_rev L cfg (rows : list (list string)) :
  scan_rows L cfg (rev rows) =
    match last (filter (fun c => nonblank c = true) ((fun row => hd "" row) <$> rows)) with
    | Some c => parse_any_datetime L cfg (Value (VStr c))
    | None => Ok None
    end.
Proof.
  induction rows as [|row rows IH] using rev_ind; [reflexivity |].
  rewrite rev_unit, fmap_app, filter_app, last_app.
  destruct row as [|c cells]; cbn [fmap list_fmap hd scan_rows].
  - rewrite filter_cons_False by (rewrite nonblank_empty; discriminate).
    rewrite filter_nil. exact IH.
  - fold (nonblank c). destruct (nonblank c) eqn:Hc.
    + rewrite filter_cons_True by exact Hc. reflexivity.
    + rewrite filter_cons_False by (rewrite Hc; discriminate).
      rewrite filter_nil. exact IH.
Qed.

Lemma last_logged_spec L cfg ws :
  last_logged L cfg ws =
    match last_timestamp_cell ws with
    | Some c => parse_any_datetime L cfg (Value (VStr c))
    | None => Ok None
    end.
Proof.
  unfold last_logged, last_timestamp_cell, timestamp_column.
  destruct (Nat.ltb_spec (length ws) 2) as [Hlt | Hge].
  - destruct ws as [|h [|r ws]]; simpl in *; try reflexivity. lia.
  - apply scan_rows_rev.
Qed.

(** C3, as the code has it.  The log reader reads the log once and returns
    the normalization of the last non-blank cell of the timestamp column
    (header excluded, rows whose timestamp cell is blank skipped).  It
    returns none exactly when the column has no non-blank cell or that last
    non-blank cell does not parse; cells above it are not consulted. *)
Theorem log_reader_reads_last_nonblank_cell (L : libs) (cfg : config)
    (ws : worksheet) (tr : list event) :
  exists o,
    get_last_logged_timestamp L cfg {| sheet := ws; trace := tr |}
      = (Next o, {| sheet := ws; trace := (tr ++ [EGetAllValues])%list |})
    /\ match last_timestamp_cell ws with
       | Some c => parse_any_datetime L cfg (Value (VStr c)) = Ok o
       | None => o = None
       end
    /\ (o = None <->
        last_timestamp_cell ws = None
        \/ exists c, last_timestamp_cell ws = Some c
                     /\ parse_any_datetime L cfg (Value (VStr c)) = Ok None).
Proof.
  rewrite get_last_logged_timestamp_run, last_logged_spec. simpl.
  destruct (last_timestamp_cell ws) as [c|] eqn:Hc.
  - destruct (parse_any_datetime_value_ok L cfg (VStr c)) as [o Ho]. rewrite Ho.
    exists o. repeat split; try reflexivity.
    + intros ->. right. eauto.
    + intros [Hnone | (c' & [= <-] & Hp)]; [discriminate | congruence].
  - exists None. repeat split; auto.
Qed.

(** C3 as stated fails when the last non-blank cell does not parse while a
    cell above it does: the reader answers none although not every row is
    unparsable. *)
Lemma log_reader_stops_at_unparsable_cell :
  let ws := [Examples.header; ["2024-01-01 10:00:00"; "21"]; ["n/a"; "22"]] in
  (get_last_logged_timestamp Examples.the_libs Examples.the_config
     (Examples.fresh_world ws)).1 = Next None
  /\ parse_any_datetime Examples.the_libs Examples.the_config (Value (VStr "2024-01-01 10:00:00"))
     = Ok (Some (Examples.at_zone "Africa/Johannesburg" 7200 2024 1 1 10 0 0)).
Proof. vm_compute. split; reflexivity. Qed.

(** ** The calendar, the fixed pattern and its reader *)

Lemma civil_roundtrip z :
  let '(y, m, d) := civil_from_days z in days_from_civil y m d = z.
Proof.
  unfold civil_from_days, days_from_civil. cbv zeta.
  repeat match goal with |- context [if ?b then _ else _] => destruct b eqn:? end;
  Z.div_mod_to_equations; lia.
Qed.

Lemma civil_bounds z y m d :
  civil_from_days z = (y, m, d) ->
  -719162 <= z <= 2932896 ->
  1 <= y <= 9999 /\ 1 <= m <= 12 /\ 1 <= d <= 31.
Proof.
  unfold civil_from_days. cbv zeta.
  repeat match goal with |- context [if ?b then _ else _] => destruct b eqn:? end;
  intros [= <- <- <-] Hz; Z.div_mod_to_equations; lia.
Qed.

(** Known dates: the last second before the epoch, two leap days, the
    day after a missing one, and the ends of the range. *)
Example strftime_examples :
  map strftime_wall
    [ -1 * US; 951782400 * US + 999999; 1709164800 * US; -2203891200 * US;
      WALL_MIN; WALL_MAX ]
  = [ "1969-12-31 23:59:59"; "2000-02-29 00:00:00"; "2024-02-29 00:00:00";
      "1900-03-01 00:00:00"; "0001-01-01 00:00:00"; "9999-12-31 23:59:59" ].
Proof. vm_compute. reflexivity. Qed.

Lemma digit_val_digit n : digit_val (digit n) = Some (n mod 10).
Proof.
  unfold digit_val, digit.
  assert (H : 0 <= n mod 10 < 10) by (apply Z.mod_pos_bound; lia).
  rewrite nat_ascii_embedding by lia.
  replace (48 <=? 48 + Z.to_nat (n mod 10))%nat with true by (symmetry; apply Nat.leb_le; lia).
  replace (48 + Z.to_nat (n mod 10) <=? 57)%nat with true by (symmetry; apply Nat.leb_le; lia).
  simpl. f_equal. lia.
Qed.

Lemma num2_digits n : 0 <= n < 100 -> num2 (digit (n / 10)) (digit n) = Some n.
Proof.
  intros H. unfold num2. rewrite !digit_val_digit. f_equal.
  Z.div_mod_to_equations. lia.
Qed.

Lemma num4_digits n :
  0 <= n < 10000 ->
  num4 (digit (n / 1000)) (digit (n / 100)) (digit (n / 10)) (digit n) = Some n.
Proof.
  intros H. unfold num4, num2. rewrite !digit_val_digit. f_equal.
  Z.div_mod_to_equations. lia.
Qed.

Lemma parse_pattern_chars (y1 y2 y3 y4 m1 m2 d1 d2 h1 h2 i1 i2 s1 s2 : ascii) :
  parse_pattern
    (String y1 (String y2 (String y3 (String y4 (String "-" (String m1 (String m2
      (String "-" (String d1 (String d2 (String " " (String h1 (String h2
        (String ":" (String i1 (String i2 (String ":" (String s1 (String s2
          EmptyString)))))))))))))))))))%char
  = match num4 y1 y2 y3 y4, num2 m1 m2, num2 d1 d2, num2 h1 h2, num2 i1 i2, num2 s1 s2 with
    | Some y, Some m, Some d, Some hh, Some mm, Some ss =>
        let days := days_from_civil y m d in
        if bool_decide (civil_from_days days = (y, m, d))
           && (hh <? 24) && (mm <? 60) && (ss <? 60)
           && in_range (seconds_of y m d hh mm ss * US)
        then Ok (Some {| wall := seconds_of y m d hh mm ss * US; tz := None |})
        else Raise ParserError
    | _, _, _, _, _, _ => Raise ParserError
    end.
Proof. reflexivity. Qed.

Lemma floor_sec_mul w : floor_sec w = w / US * US.
Proof. unfold floor_sec, US. Z.div_mod_to_equations. lia. Qed.

Lemma parse_pattern_strftime w :
  in_range w = true ->
  parse_pattern (strftime_wall w) = Ok (Some {| wall := floor_sec w; tz := None |}).
Proof.
  intros Hr. unfold in_range in Hr. apply andb_true_iff in Hr as [Hlo Hhi].
  apply Z.leb_le in Hlo, Hhi.
  assert (Hmin : WALL_MIN = -62135596800000000) by reflexivity.
  assert (Hmax : WALL_MAX = 253402300799999999) by reflexivity.
  rewrite floor_sec_mul. unfold strftime_wall.
  set (secs := w / US).
  assert (Hsecs : -62135596800 <= secs <= 253402300799)
    by (subst secs; unfold US; Z.div_mod_to_equations; lia).
  destruct (civil_from_days (secs / 86400)) as [[y m] d] eqn:Hc.
  pose proof (civil_roundtrip (secs / 86400)) as Hrt. rewrite Hc in Hrt.
  assert (Hdays : -719162 <= secs / 86400 <= 2932896) by (Z.div_mod_to_equations; lia).
  destruct (civil_bounds _ _ _ _ Hc Hdays) as (Hy & Hm & Hd).
  unfold pad4, pad2. rewrite parse_pattern_chars.
  rewrite num4_digits by lia.
  rewrite !num2_digits by (Z.div_mod_to_equations; lia).
  cbv zeta. rewrite Hrt, Hc.
  assert (Hsec : seconds_of y m d (secs mod 86400 / 3600) (secs mod 86400 mod 3600 / 60)
                   (secs mod 86400 mod 60) = secs).
  { unfold seconds_of. rewrite Hrt. Z.div_mod_to_equations. lia. }
  rewrite Hsec.
  rewrite bool_decide_eq_true_2 by reflexivity.
  replace (secs mod 86400 / 3600 <? 24) with true
    by (symmetry; apply Z.ltb_lt; Z.div_mod_to_equations; lia).
  replace (secs mod 86400 mod 3600 / 60 <? 60) with true
    by (symmetry; apply Z.ltb_lt; Z.div_mod_to_equations; lia).
  replace (secs mod 86400 mod 60 <? 60) with true
    by (symmetry; apply Z.ltb_lt; Z.div_mod_to_equations; lia).
  replace (in_range (secs * US)) with true; [reflexivity |].
  symmetry. unfold in_range. rewrite Hmin, Hmax. apply andb_true_iff.
  split; apply Z.leb_le; unfold US; lia.
Qed.

(** Settle the comparisons of the code [d] of a digit. *)
Ltac settle_digit d :=
  repeat match goal with
  | |- context [Nat.eqb d ?k] =>
      replace (Nat.eqb d k) with false by (symmetry; apply Nat.eqb_neq; lia)
  | |- context [Nat.leb ?k d] =>
      first [ replace (Nat.leb k d) with true by (symmetry; apply Nat.leb_le; lia)
            | replace (Nat.leb k d) with false by (symmetry; apply Nat.leb_gt; lia) ]
  | |- context [Nat.leb d ?k] =>
      first [ replace (Nat.leb d k) with true by (symmetry; apply Nat.leb_le; lia)
            | replace (Nat.leb d k) with false by (symmetry; apply Nat.leb_gt; lia) ]
  end;
  cbn [andb orb]; rewrite ?andb_false_r; cbn [andb orb]; try reflexivity.

(** No whitespace character starts or ends with a digit. *)
Lemma digit_no_space n :
  space1 (digit n) = false
  /\ (forall x, space2 (digit n) x = false /\ space2 x (digit n) = false)
  /\ (forall x y, space3 (digit n) x y = false /\ space3 y x (digit n) = false).
Proof.
  unfold space1, space2, space3.
  assert (H : 0 <= n mod 10 < 10) by (apply Z.mod_pos_bound; lia).
  assert (Hd : (48 <= nat_of_ascii (digit n) <= 57)%nat).
  { unfold digit. rewrite nat_ascii_embedding by lia. lia. }
  set (d := nat_of_ascii (digit n)) in *.
  repeat split; intros; settle_digit d.
Qed.

Lemma skip_spaces_digit b n s : skip_spaces b (String (digit n) s) = String (digit n) s.
Proof.
  destruct (digit_no_space n) as (H1 & H2 & H3).
  cbn [skip_spaces]. rewrite H1.
  destruct s as [|x s]; [reflexivity |].
  destruct (H2 x) as [-> ->]. destruct b.
  - destruct s as [|y s]; [reflexivity |]. now destruct (H3 x y) as [_ ->].
  - destruct s as [|y s]; [reflexivity |]. now destruct (H3 x y) as [-> _].
Qed.

Lemma strftime_wall_nonblank w : nonblank (strftime_wall w) = true.
Proof.
  unfold strftime_wall. destruct (civil_from_days (w / US / 86400)) as [[y m] d].
  unfold nonblank, strip, rstrip, lstrip, pad4, pad2.
  rewrite skip_spaces_digit.
  cbn [String.rev String.rev_app]. rewrite skip_spaces_digit.
  reflexivity.
Qed.

Lemma strftime_wall_not_empty w : String.eqb (strftime_wall w) "" = false.
Proof.
  unfold strftime_wall. destruct (civil_from_days (w / US / 86400)) as [[y m] d].
  reflexivity.
Qed.

Lemma floor_sec_div w : floor_sec w / US = w / US.
Proof. unfold floor_sec, US. Z.div_mod_to_equations. lia. Qed.

Lemma floor_sec_shift w o : floor_sec (w - o * US) = floor_sec w - o * US.
Proof. unfold floor_sec, US. Z.div_mod_to_equations. lia. Qed.

Lemma floor_sec_whole w : floor_sec w mod US = 0.
Proof. unfold floor_sec, US. Z.div_mod_to_equations. lia. Qed.

(** ** The round trip through the log *)

(** Reading a written timestamp: the parser gives the naive datetime of the
    pattern, [localize] tags it. *)
Lemma parse_written L cfg w :
  parser_reads_pattern L -> in_range w = true -> ERA_MIN * US <= w ->
  parse_any_datetime L cfg (Value (VStr (strftime_wall w))) =
    Ok (match localize_offset (TZ cfg) (w / US) with
        | Ok o => Some {| wall := floor_sec w;
                          tz := Some {| zone := zone_name (TZ cfg); utcoffset := o |} |}
        | Raise _ => None
        end).
Proof.
  intros Hparse Hr Hera.
  rewrite parse_any_datetime_value.
  cbn [is_none eq_empty_str orb str].
  rewrite strftime_wall_not_empty, (Hparse w Hr Hera).
  unfold to_TZ, localize; cbn [res_bind tz wall]. rewrite floor_sec_div.
  destruct (localize_offset (TZ cfg) (w / US)); reflexivity.
Qed.

(** An instant made from an input without timezone information reads back
    the same: [localize] tagged it, and resolves its reading again. *)
Lemma naive_source_reads_back_same L cfg src d :
  tz src = None -> to_TZ L cfg src = Ok d -> reads_back_same (TZ cfg) d.
Proof.
  unfold to_TZ, localize. intros ->.
  destruct (localize_offset (TZ cfg) (wall src / US)) as [o|] eqn:Hloc; [| discriminate].
  intros [= <-]. eexists. split; [reflexivity | exact Hloc].
Qed.

(** C6, as the code has it.  For an instant the normalizer produced, from
    the year 1000 on: writing it in the pattern YYYY-MM-DD HH:MM:SS and
    normalizing the text again gives the same instant, to the second,
    exactly when [localize] resolves the written reading to the offset the
    instant carries, and then in the same zone; [localize] does so for
    every instant made from an input without timezone information. *)
Theorem written_timestamp_reads_back (L : libs) (cfg : config) (a : any) (d : datetime) :
  parser_reads_pattern L ->
  parse_any_datetime L cfg a = Ok (Some d) ->
  in_range (wall d) = true ->
  ERA_MIN * US <= wall d ->
  ((exists d',
      parse_any_datetime L cfg (Value (VStr (strftime d))) = Ok (Some d')
      /\ instant d' = floor_sec (instant d))
   <-> reads_back_same (TZ cfg) d)
  /\ (reads_back_same (TZ cfg) d ->
      exists d',
        parse_any_datetime L cfg (Value (VStr (strftime d))) = Ok (Some d')
        /\ instant d' = floor_sec (instant d)
        /\ tz d' = tz d)
  /\ (forall src, tz src = None -> to_TZ L cfg src = Ok d -> reads_back_same (TZ cfg) d).
Proof.
  intros Hparse Hd Hr Hera.
  destruct (parse_any_datetime_aware L cfg a d Hd) as [o Ho].
  assert (Hback : reads_back_same (TZ cfg) d ->
            exists d',
              parse_any_datetime L cfg (Value (VStr (strftime d))) = Ok (Some d')
              /\ instant d' = floor_sec (instant d)
              /\ tz d' = tz d).
  { intros (i & Hi & Hloc). rewrite Hi in Ho. injection Ho as ->.
    unfold strftime. rewrite (parse_written L cfg (wall d) Hparse Hr Hera), Hloc.
    eexists. split; [reflexivity |].
    unfold instant. rewrite Hi. simpl. split; [| reflexivity].
    now rewrite floor_sec_shift. }
  split; [| split].
  - split.
    + intros (d' & Hd' & Hinst). unfold strftime in Hd'.
      rewrite (parse_written L cfg (wall d) Hparse Hr Hera) in Hd'.
      destruct (localize_offset (TZ cfg) (wall d / US)) as [o'|] eqn:Hloc; [| discriminate].
      injection Hd' as <-. eexists. split; [exact Ho |].
      rewrite Hloc. f_equal.
      unfold instant in Hinst. rewrite Ho in Hinst. simpl in Hinst.
      rewrite floor_sec_shift in Hinst. unfold US in Hinst. simpl. lia.
    + intros H. destruct (Hback H) as (d' & Hd' & Hinst & _). eauto.
  - exact Hback.
  - intros src. apply naive_source_reads_back_same.
Qed.

Lemma parser_reads_pattern_the_libs : parser_reads_pattern the_libs.
Proof. intros w Hr _. apply parse_pattern_strftime, Hr. Qed.

Lemma written_timestamp_reads_back_example :
  let d := at_zone "Africa/Johannesburg" 7200 2024 1 1 10 0 0 in
  exists d',
    parse_any_datetime the_libs the_config (Value (VStr (strftime d))) = Ok (Some d')
    /\ instant d' = floor_sec (instant d)
    /\ tz d' = tz d.
Proof.
  intros d.
  apply (written_timestamp_reads_back the_libs the_config
           (Value (VStr "2024-01-01 10:00:00")) d).
  - exact parser_reads_pattern_the_libs.
  - vm_compute. reflexivity.
  - vm_compute. reflexivity.
  - vm_compute. discriminate.
  - eexists. split; vm_compute; reflexivity.
Defined.

(** C6 as stated fails in a zone with daylight saving time.  With
    Europe/London configured, the instant 2024-10-27 00:30:00 UTC is
    normalized to 01:30:00 British Summer Time and written as
    2024-10-27 01:30:00; that reading occurs twice that night, and read
    again it is taken as 01:30:00 GMT, one hour later. *)
Lemma ambiguous_hour_reads_back_an_hour_later :
  let cfg := config_with London 60 in
  exists d d',
    parse_any_datetime the_libs cfg (Datetime (at_zone "UTC" 0 2024 10 27 0 30 0))
      = Ok (Some d)
    /\ strftime d = "2024-10-27 01:30:00"
    /\ parse_any_datetime the_libs cfg (Value (VStr (strftime d))) = Ok (Some d')
    /\ instant d' = instant d + 3600 * US
    /\ floor_sec (instant d) <> instant d'.
Proof.
  eexists. eexists.
  split; [vm_compute; reflexivity |].
  split; [vm_compute; reflexivity |].
  split; [vm_compute; reflexivity |].
  split; [vm_compute; reflexivity |].
  vm_compute. discriminate.
Qed.

(** Without daylight saving time as well: a datetime that carries the
    zone object of the configured zone itself (with the offset of local
    mean time, +01:52 for Africa/Johannesburg) is returned as it is, and its
    reading, written and read again, is taken at +02:00, eight minutes
    earlier. *)
Example own_offset_reads_back_eight_minutes_earlier :
  let d := {| wall := seconds_of 2024 1 1 10 0 0 * US; tz := Some (tzinfo_of SAST) |} in
  exists d',
    parse_any_datetime the_libs the_config (Datetime d) = Ok (Some d)
    /\ parse_any_datetime the_libs the_config (Value (VStr (strftime d))) = Ok (Some d')
    /\ instant d' = instant d - 480 * US.
Proof.
  eexists.
  split; [vm_compute; reflexivity |].
  split; vm_compute; reflexivity.
Qed.

(** ** Monotonicity of the log *)

Lemma filter_all {A} (P : A -> Prop) `{forall x, Decision (P x)} (l : list A) :
  Forall P l -> filter P l = l.
Proof.
  induction 1 as [|x l Hx _ IH]; [reflexivity |].
  rewrite filter_cons_True by exact Hx. now rewrite IH.
Qed.

(** On a kept log the reader answers the last instant of the column. *)
Lemma last_logged_of_column L cfg ws ts :
  column_reads L cfg ws ts ->
  Forall (fun c => nonblank c = true) (timestamp_column ws) ->
  match last ts with
  | None => last_logged L cfg ws = Ok None
  | Some t => exists d, last_logged L cfg ws = Ok (Some d) /\ instant d = t
  end.
Proof.
  intros Hreads Hnb. rewrite last_logged_spec.
  unfold last_timestamp_cell. rewrite (filter_all _ _ Hnb).
  apply (f_equal last) in Hreads. rewrite !fmap_last in Hreads.
  destruct (last ts) as [t|], (last (timestamp_column ws)) as [c|];
    try discriminate; [| reflexivity].
  injection Hreads as Hc. unfold read_back in Hc.
  destruct (parse_any_datetime L cfg (Value (VStr c))) as [[d|]|]; try discriminate.
  injection Hc as <-. eauto.
Qed.

Lemma sorted_up_to_last (ts : list Z) x :
  StronglySorted Z.le ts -> x ∈ ts -> exists t, last ts = Some t /\ x <= t.
Proof.
  intros Hs Hx.
  destruct (last ts) as [t|] eqn:Hl.
  - exists t. split; [reflexivity |].
    apply last_Some in Hl as [ts' ->].
    apply elem_of_app in Hx as [Hx | Hx].
    + eapply (StronglySorted_app_1_elem_of _ _ _ _ _ Hs Hx). apply list_elem_of_singleton.
      reflexivity.
    + apply list_elem_of_singleton in Hx as ->. lia.
  - apply last_None in Hl as ->. now apply elem_of_nil in Hx.
Qed.

Lemma sorted_snoc (ts : list Z) t' :
  StronglySorted Z.le ts ->
  (forall t, last ts = Some t -> t <= t') ->
  StronglySorted Z.le (ts ++ [t'])%list.
Proof.
  intros Hs Hlast. apply StronglySorted_app_2; [| exact Hs | repeat constructor].
  intros x1 x2 H1 H2. apply list_elem_of_singleton in H2 as ->.
  destruct (sorted_up_to_last ts x1 Hs H1) as (t & Ht & Hle).
  specialize (Hlast t Ht). lia.
Qed.

Lemma timestamp_column_snoc (ws : worksheet) (row : list string) :
  timestamp_column (ws ++ [row])%list =
    match ws with
    | [] => []
    | _ => (timestamp_column ws ++ [hd "" row])%list
    end.
Proof.
  unfold timestamp_column. destruct ws as [|h ws]; [reflexivity |].
  simpl. now rewrite fmap_app.
Qed.

(** The datetimes a run formats are settled: made by [localize], or by a
    conversion to the clock of the zone. *)
Lemma convert_settled z d off r :
  localize_not_earlier z -> convert z d off = Ok r -> inside_dt r = true -> settled z r.
Proof.
  intros Hzone Hc Hin. apply convert_ok in Hc as (Hr & Hw & Ht).
  split; [exact Hr |].
  set (u := wall d - off * US) in *.
  assert (Hwall : wall r / US = u / US + fromutc_offset z (u / US)).
  { rewrite Hw. unfold US. Z.div_mod_to_equations. lia. }
  assert (Hinst : instant r = u).
  { unfold instant. rewrite Ht, Hw. simpl. lia. }
  unfold inside_dt in Hin. rewrite Hinst, Hwall in Hin.
  apply andb_true_iff in Hin as [Hin_w Hin_u].
  destruct (Hzone (u / US) Hin_u Hin_w) as (o & Hloc & Hle).
  exists (fromutc_offset z (u / US)), o. repeat split; try assumption.
  now rewrite Hwall.
Qed.

Lemma to_TZ_settled L cfg src d :
  localize_not_earlier (TZ cfg) ->
  in_range (wall src) = true -> tz src <> Some (tzinfo_of (TZ cfg)) ->
  to_TZ L cfg src = Ok d -> inside_dt d = true -> settled (TZ cfg) d.
Proof.
  intros Hzone Hr Hforeign. unfold to_TZ, localize.
  destruct (tz src) as [i|] eqn:Hi.
  - intros Ha Hin. destruct (astimezone_cases _ _ _ _ _ Hi Ha) as [[-> _] | [_ Hc]].
    + now destruct Hforeign.
    + now apply convert_settled in Hc.
  - destruct (localize_offset (TZ cfg) (wall src / US)) as [o|] eqn:Hloc; [| discriminate].
    intros [= <-] _. split; [exact Hr |]. exists o, o. simpl. repeat split; [exact Hloc | lia].
Qed.

Lemma obs_ts_settled L cfg v d obs_ts :
  parser_returns_datetimes L cfg -> localize_not_earlier (TZ cfg) ->
  parse_any_datetime L cfg (Value v) = Ok (Some d) ->
  astimezone (system_zone L) (TZ cfg) d = Ok obs_ts ->
  inside_dt obs_ts = true ->
  settled (TZ cfg) obs_ts.
Proof.
  intros Hret Hzone Hd Ha Hin.
  destruct (parse_any_datetime_aware L cfg _ d Hd) as [o Hi].
  apply parse_any_datetime_source in Hd as (src & [[=] | (v' & [= <-] & Hp)] & Ht).
  destruct (Hret _ _ Hp) as [Hr Hforeign].
  destruct (astimezone_cases _ _ _ _ _ Hi Ha) as [[_ ->] | [_ Hc]].
  - exact (to_TZ_settled L cfg src d Hzone Hr Hforeign Ht Hin).
  - now apply convert_settled in Hc.
Qed.

(** What a logged timestamp reads back as: an instant on a whole second,
    not earlier than the whole second of the instant that was logged. *)
Lemma read_back_settled L cfg d :
  parser_reads_pattern L -> settled (TZ cfg) d -> inside_dt d = true ->
  exists t', read_back L cfg (strftime d) = Some t'
    /\ t' mod US = 0 /\ floor_sec (instant d) <= t'.
Proof.
  intros Hparse (Hr & od & o & Ht & Hloc & Hle) Hin.
  assert (Hera : ERA_MIN * US <= wall d).
  { unfold inside_dt, inside in Hin.
    apply andb_true_iff in Hin as [Hin _]. apply andb_true_iff in Hin as [Hin _].
    apply Z.leb_le in Hin. unfold US in *. Z.div_mod_to_equations. lia. }
  unfold read_back, strftime. rewrite (parse_written L cfg _ Hparse Hr Hera), Hloc.
  eexists. split; [reflexivity |].
  unfold instant. rewrite Ht. simpl.
  unfold floor_sec, US in *. split; Z.div_mod_to_equations; nia.
Qed.

(** One run keeps the log kept. *)
Lemma run_kept L cfg ws r :
  parser_reads_pattern L -> parser_returns_datetimes L cfg ->
  sheet_keeps_text L -> localize_not_earlier (TZ cfg) ->
  observed_inside L cfg r = true ->
  ws <> [] -> kept L cfg ws -> kept L cfg (run L cfg ws r).
Proof.
  intros Hparse Hret Htext Hzone Hin Hne Hkept. unfold run.
  destruct (main L cfg r {| sheet := ws; trace := [] |}) as [s w'] eqn:Hmain.
  apply main_cases in Hmain as [[Hsheet _] | Happ]; simpl in *.
  { now rewrite Hsheet. }
  destruct Happ as (obs & v & d & obs_ts & last & row & _ & Hc & Hv & Htv & Hd & Ha & Hlast
                    & Hguard & Hrow & _ & ->). simpl.
  unfold observed_inside in Hin.
  rewrite (observation_time_of_run L cfg r _ obs v d obs_ts Hc Hv Htv Hd Ha) in Hin.
  apply map_row_returns in Hrow as (o & m & _ & _ & ->).
  unfold mapped_row. cbn [map]. rewrite Htext.
  destruct Hkept as (ts & Hreads & Hsorted & Hwhole & Hnb).
  unfold kept, column_reads in *. rewrite timestamp_column_snoc.
  destruct ws as [|h ws']; [contradiction |].
  set (ws := h :: ws') in *. cbn [hd].
  pose proof (obs_ts_settled L cfg v d obs_ts Hret Hzone Hd Ha Hin) as Hsettled.
  destruct (read_back_settled L cfg obs_ts Hparse Hsettled Hin) as (t' & Ht' & Hmod & Hfloor).
  exists (ts ++ [t'])%list. repeat split.
  - rewrite !fmap_app, Hreads. simpl. now rewrite Ht'.
  - apply sorted_snoc; [exact Hsorted |].
    intros t Ht.
    pose proof (last_logged_of_column L cfg ws ts Hreads Hnb) as Hl. rewrite Ht in Hl.
    destruct Hl as (dl & Hdl & <-). rewrite Hdl in Hlast. injection Hlast as <-.
    apply duplicate_guard_newer in Hguard.
    assert (Hw : instant dl mod US = 0).
    { apply last_Some in Ht as [ts' ->]. apply Forall_app in Hwhole as [_ Hw].
      now inversion Hw. }
    unfold floor_sec, US in *. Z.div_mod_to_equations. lia.
  - apply Forall_app. split; [exact Hwhole | repeat constructor; exact Hmod].
  - apply Forall_app. split; [exact Hnb | repeat constructor].
    unfold strftime. apply strftime_wall_nonblank.
Qed.

(** A run leaves a sheet that has a first row with a first row. *)
Lemma run_not_empty L cfg ws r : ws <> [] -> run L cfg ws r <> [].
Proof.
  intros Hne. unfold run.
  destruct (main L cfg r {| sheet := ws; trace := [] |}) as [s w'] eqn:Hmain.
  apply main_cases in Hmain as [[Hsheet _] | Happ]; simpl in *.
  - now rewrite Hsheet.
  - destruct Happ as (obs & v & d & obs_ts & last & row & _ & _ & _ & _ & _ & _ & _ & _ & _
                      & _ & ->). simpl.
    destruct ws; [contradiction | discriminate].
Qed.

Lemma runs_kept L cfg rs : forall ws,
  parser_reads_pattern L -> parser_returns_datetimes L cfg ->
  sheet_keeps_text L -> localize_not_earlier (TZ cfg) ->
  Forall (fun r => observed_inside L cfg r = true) rs ->
  ws <> [] -> kept L cfg ws -> kept L cfg (runs L cfg ws rs).
Proof.
  induction rs as [|r rs IH]; intros ws Hparse Hret Htext Hzone Hin Hne Hkept;
    [exact Hkept |].
  apply Forall_cons in Hin as [Hr Hrs].
  simpl. apply IH; try assumption.
  - now apply run_not_empty.
  - now apply run_kept.
Qed.

(** A sheet with its header and nothing else is kept. *)
Lemma kept_without_data L cfg ws : (length ws = 1)%nat -> kept L cfg ws.
Proof.
  intros Hlen. exists [].
  assert (Hcol : timestamp_column ws = []).
  { destruct ws as [|h [|r ws]]; simpl in *; try reflexivity; lia. }
  unfold column_reads. rewrite Hcol. repeat split; constructor.
Qed.

Lemma parser_returns_datetimes_the_libs cfg : parser_returns_datetimes the_libs cfg.
Proof.
  intros s d. simpl. unfold parse_pattern. intros Hp.
  repeat case_match; try discriminate.
  injection Hp as <-. simpl. split; [| discriminate].
  repeat match goal with
  | H : _ && _ = true |- _ => apply andb_true_iff in H as [? ?]
  end.
  assumption.
Qed.

Lemma sheet_keeps_text_the_libs : sheet_keeps_text the_libs.
Proof. intros s. reflexivity. Qed.

Lemma dst_localize_offset_step fuel init ts w :
  dst_localize_offset fuel init ts w =
    res_bind (candidate init ts w (-86400)) (fun a =>
    res_bind (candidate init ts w 86400) (fun b =>
    match a, b with
    | Some a, None => Ok a.1
    | None, Some b => Ok b.1
    | None, None =>
        match fuel with
        | O => Raise (LibraryError "RecursionError")
        | S fuel' =>
            if negb (sec_in_range (w - 6 * 3600)) then Raise OverflowError
            else dst_localize_offset fuel' init ts (w - 6 * 3600)
        end
    | Some a, Some b =>
        if a.1 =? b.1 then Ok a.1
        else if negb a.2 && b.2 then Ok a.1
        else if negb b.2 && a.2 then Ok b.1
        else Ok (Z.min a.1 b.1)
    end)).
Proof. destruct fuel; reflexivity. Qed.

(** Settle the innermost comparison of the goal: by arithmetic when the
    hypotheses decide it, by cases otherwise. *)
Ltac decide_leb :=
  match goal with
  | |- context [?a <=? ?b] =>
      lazymatch a with context [if _ then _ else _] => fail | _ => idtac end;
      lazymatch b with context [if _ then _ else _] => fail | _ => idtac end;
      first
        [ replace (a <=? b) with true by (symmetry; apply Z.leb_le; lia)
        | replace (a <=? b) with false by (symmetry; apply Z.leb_gt; lia)
        | destruct (Z.leb_spec a b) ]
  end.

(** The zone law holds for the default zone, through every transition of
    its history: every reading of the Johannesburg clock is resolved, a
    repeated one (at the end of daylight saving time, and when the clock was
    set back in 1892) to its second occurrence. *)
Lemma localize_not_earlier_SAST : localize_not_earlier SAST.
Proof.
  intros u Hu Hw. unfold SAST, dst_zone in *. cbn [fromutc_offset localize_offset] in *.
  unfold inside, ERA_MIN, ERA_MAX, SEC_MAX in Hu, Hw.
  apply andb_true_iff in Hu as [Hu1 Hu2]. apply Z.leb_le in Hu1, Hu2.
  apply andb_true_iff in Hw as [Hw1 Hw2]. apply Z.leb_le in Hw1, Hw2.
  rewrite dst_localize_offset_step.
  unfold candidate, sec_in_range, SEC_MIN, SEC_MAX.
  change (seconds_of 1000 1 1 0 0 0) with (-30610224000) in *.
  change (seconds_of 1 1 1 0 0 0) with (-62135596800) in *.
  change (seconds_of 9999 12 31 23 59 59) with 253402300799 in *.
  change (seconds_of 1892 2 7 22 8 0) with (-2458173120) in *.
  change (seconds_of 1903 2 28 22 30 0) with (-2109288600) in *.
  change (seconds_of 1942 9 20 0 0 0) with (-860976000) in *.
  change (seconds_of 1943 3 20 23 0 0) with (-845254800) in *.
  change (seconds_of 1943 9 19 0 0 0) with (-829526400) in *.
  change (seconds_of 1944 3 18 23 0 0) with (-813805200) in *.
  unfold info_at in *. cbn [at_utc offset is_dst fst snd] in *.
  repeat (decide_leb; cbn [fst snd Z.eqb Pos.eqb negb andb res_bind] in * );
    eexists; (split; [reflexivity | lia]).
Qed.

(** C2, as the code has it.  A run that appends a row has normalized the
    observation's time to an instant that is after the last logged instant,
    as the reader gave it to this run, or the reader gave none; and for a
    window of at most 2^34 seconds it is after it by at least the window.
    Consequently the timestamp column of a log that started with its header
    row alone, or was kept by earlier runs, is non-decreasing after any
    sequence of runs on observations from the year 1000 to two days before
    the end of the range of datetimes, under the library behaviour the log
    relies on: the parser reads the written pattern and returns datetimes of
    its own, the sheet gives text back as written, and [localize] resolves a
    reading of the zone to an instant that is not earlier. *)
Theorem appended_instants_never_decrease (L : libs) (cfg : config) :
  (forall r w row,
     In (EAppendRow row) (trace (main L cfg r w).2) ->
     ~ In (EAppendRow row) (trace w) ->
     exists obs v d obs_ts last,
       classify r w = (Next obs, w)
       /\ get obs "obsTimeLocal" VNone = Ok v
       /\ parse_any_datetime L cfg (Value v) = Ok (Some d)
       /\ astimezone (system_zone L) (TZ cfg) d = Ok obs_ts
       /\ instant obs_ts = instant d
       /\ head row = Some (VStr (strftime obs_ts))
       /\ last_logged L cfg (sheet w) = Ok last
       /\ match last with
          | None => True
          | Some l =>
              instant l < instant obs_ts
              /\ (DUP_WINDOW_SEC cfg <= 2 ^ 34 ->
                  DUP_WINDOW_SEC cfg * US <= instant obs_ts - instant l)
          end)
  /\ (parser_reads_pattern L -> parser_returns_datetimes L cfg ->
      sheet_keeps_text L -> localize_not_earlier (TZ cfg) ->
      forall ws rs,
        (length ws = 1)%nat \/ (ws <> [] /\ kept L cfg ws) ->
        Forall (fun r => observed_inside L cfg r = true) rs ->
        log_monotone L cfg (runs L cfg ws rs)).
Proof.
  split.
  - intros r w row Hin Hnot.
    destruct (main L cfg r w) as [s w'] eqn:Hmain. simpl in Hin.
    apply main_cases in Hmain as [[_ [Ht | Ht]] | Happ].
    + rewrite Ht in Hin. contradiction.
    + rewrite Ht in Hin. apply in_app_or in Hin as [Hin | Hin]; [contradiction |].
      simpl in Hin. destruct Hin as [Hin | [Hin | []]]; discriminate.
    + destruct Happ as (obs & v & d & obs_ts & last & row' & _ & Hc & Hv & _ & Hd & Ha & Hlast
                        & Hguard & Hrow & _ & ->).
      simpl in Hin. apply in_app_or in Hin as [Hin | Hin]; [contradiction |].
      simpl in Hin. destruct Hin as [Hin | [Hin | [Hin | []]]]; try discriminate.
      injection Hin as <-.
      apply map_row_returns in Hrow as (o & m & _ & _ & ->).
      destruct (parse_any_datetime_aware L cfg _ d Hd) as [off Hi].
      destruct (astimezone_aware _ _ _ _ _ Hi Ha) as (Hinst & _).
      exists obs, v, d, obs_ts, last. repeat split; try assumption.
      destruct last as [l|]; [| exact I].
      split; [now apply duplicate_guard_newer in Hguard |].
      intros HW. now apply (duplicate_guard_admits _ _ _ _ HW) in Hguard.
  - intros Hparse Hret Htext Hzone ws rs Hws Hin.
    assert (Hkept : ws <> [] /\ kept L cfg ws).
    { destruct Hws as [Hlen | Hk]; [| exact Hk].
      split; [now destruct ws | now apply kept_without_data]. }
    destruct Hkept as [Hne Hkept].
    destruct (runs_kept L cfg rs ws Hparse Hret Htext Hzone Hin Hne Hkept)
      as (ts & Hreads & Hsorted & _).
    exists ts. split; assumption.
Qed.

Lemma appended_instants_never_decrease_example :
  log_monotone the_libs the_config
    (runs the_libs the_config [header]
       [ response_with "2024-01-01 10:00:00";
         response_with "2024-01-01 09:00:00";
         response_with "2024-01-01 10:00:30";
         response_with "2024-01-01 10:05:00" ]).
Proof.
  apply (proj2 (appended_instants_never_decrease the_libs the_config)).
  - exact parser_reads_pattern_the_libs.
  - exact (parser_returns_datetimes_the_libs the_config).
  - exact sheet_keeps_text_the_libs.
  - exact localize_not_earlier_SAST.
  - left. reflexivity.
  - repeat constructor; vm_compute; reflexivity.
Defined.

(** C2 as stated fails for a larger window.  With a window of 2^34 + 1
    seconds and 2000-01-01 00:00:00 logged last, a run on an observation
    timed 2544-05-29 01:53:04.999999, one microsecond short of the window
    later, appends its row. *)
Lemma run_appends_within_a_huge_window :
  let L := the_libs_with_fractions in
  let cfg := config_with SAST 17179869185 in
  let w := fresh_world [header; ["2000-01-01 00:00:00"]] in
  let r := response_with "2544-05-29 01:53:04.999999" in
  exists row l obs_ts,
    In (EAppendRow row) (trace (main L cfg r w).2)
    /\ last_logged L cfg (sheet w) = Ok (Some l)
    /\ observation_time L cfg r = Some obs_ts
    /\ head row = Some (VStr (strftime obs_ts))
    /\ instant l < instant obs_ts
    /\ ~ (DUP_WINDOW_SEC cfg * US <= instant obs_ts - instant l).
Proof.
  eexists. eexists. eexists.
  split; [vm_compute; right; right; left; reflexivity |].
  split; [vm_compute; reflexivity |].
  split; [vm_compute; reflexivity |].
  split; [vm_compute; reflexivity |].
  split; vm_compute; [reflexivity | intros H; now apply H].
Qed.

(** The runs of the example, computed: the second and third observations
    are skipped.  In London, on the night the clocks go back in 2024, an
    observation that reads earlier than the last row is skipped as not
    newer. *)
Example four_runs :
  timestamp_column
    (runs the_libs the_config [header]
       [ response_with "2024-01-01 10:00:00";
         response_with "2024-01-01 09:00:00";
         response_with "2024-01-01 10:00:30";
         response_with "2024-01-01 10:05:00" ])
  = ["2024-01-01 10:00:00"; "2024-01-01 10:05:00"]
  /\ timestamp_column
       (runs the_libs (config_with London 60) [header]
          [ response_with "2024-10-27 00:59:30";
            response_with "2024-10-27 01:30:00";
            response_with "2024-10-27 01:10:00";
            response_with "2024-10-27 02:00:00" ])
     = ["2024-10-27 00:59:30"; "2024-10-27 01:30:00"; "2024-10-27 02:00:00"].
Proof. vm_compute. split; reflexivity. Qed.

(** Why the log must have been kept by the runs: the reader answers none on
    a last row that does not parse, the guard then admits, and an older
    observation is appended below a newer one. *)
Example admitted_after_an_unparsable_row :
  timestamp_column
    (runs the_libs the_config [header; ["2024-01-01 10:00:00"]; ["n/a"]]
       [response_with "2024-01-01 09:00:00"])
  = ["2024-01-01 10:00:00"; "n/a"; "2024-01-01 09:00:00"].
Proof. vm_compute. reflexivity. Qed.

(** Why the sheet must have its header row: on a sheet without any row the
    first appended row takes the header's place, where the reader does not
    look, and an older observation is appended below it. *)
Example a_sheet_without_header :
  runs the_libs the_config []
    [response_with "2024-01-01 10:00:00"; response_with "2024-01-01 09:00:00"]
  = [ ["2024-01-01 10:00:00"; "21"; ""; ""; "180"; ""; ""; "1013"; "55"];
      ["2024-01-01 09:00:00"; "21"; ""; ""; "180"; ""; ""; "1013"; "55"] ].
Proof. vm_compute. reflexivity. Qed.

(** Why the times must keep away from the end of the range: a reading of
    the last day is written, and read back it is not resolved ([localize]
    raises), so the reader answers none and the guard admits an older
    observation. *)
Example last_day_does_not_read_back :
  let d := at_zone "Africa/Johannesburg" 7200 9999 12 31 1 0 0 in
  strftime d = "9999-12-31 01:00:00"
  /\ parse_any_datetime the_libs the_config (Value (VStr (strftime d))) = Ok None
  /\ timestamp_column
       (runs the_libs_with_zulu the_config [header]
          [ response_with "9999-12-30 23:00:00Z";
            response_with "2024-01-01 10:00:00Z" ])
     = ["9999-12-31 01:00:00"; "2024-01-01 12:00:00"].
Proof. vm_compute. repeat split. Qed.

(** Line 171 at work: a reading that the London clock skips (01:30 on the
    night the clocks go forward) is logged as the reading an hour later. *)
Example skipped_reading_is_normalized :
  timestamp_column
    (runs the_libs (config_with London 60) [header]
       [response_with "2024-03-31 01:30:00"])
  = ["2024-03-31 02:30:00"].
Proof. vm_compute. reflexivity. Qed.

(** * Further properties of the script *)

(** ** The required settings *)

Lemma require_env_missing cfg :
  require_env cfg =
    match missing_names cfg with
    | [] => Ok tt
    | missing => Raise (RuntimeError missing)
    end.
Proof.
  unfold require_env, missing_names, name_if_empty. cbn [filter list_filter snd].
  destruct (String.eqb (GOOGLE_SHEET_ID cfg) ""),
           (String.eqb (GOOGLE_SERVICE_ACCOUNT_FILE cfg) ""),
           (String.eqb (WCOM_API_KEY cfg) ""),
           (String.eqb (STATION_ID cfg) ""); reflexivity.
Qed.

Lemma elem_of_name_if_empty k k' v : k ∈ name_if_empty k' v <-> k = k' /\ v = "".
Proof.
  unfold name_if_empty. destruct (String.eqb_spec v "") as [-> | Hv].
  - rewrite list_elem_of_singleton. tauto.
  - rewrite elem_of_nil. tauto.
Qed.

Lemma sublist_name_if_empty k v : sublist (name_if_empty k v) [k].
Proof.
  unfold name_if_empty. destruct (String.eqb v ""); [reflexivity | apply sublist_nil_l].
Qed.

Lemma elem_of_missing_names cfg k :
  k ∈ missing_names cfg <->
    (k = "GOOGLE_SHEET_ID" /\ GOOGLE_SHEET_ID cfg = "")
    \/ (k = "GOOGLE_SERVICE_ACCOUNT_FILE" /\ GOOGLE_SERVICE_ACCOUNT_FILE cfg = "")
    \/ (k = "WCOM_API_KEY" /\ WCOM_API_KEY cfg = "")
    \/ (k = "STATION_ID" /\ STATION_ID cfg = "").
Proof.
  unfold missing_names. now rewrite !elem_of_app, !elem_of_name_if_empty.
Qed.

Lemma missing_names_nil cfg :
  missing_names cfg = [] <->
  GOOGLE_SHEET_ID cfg <> "" /\ GOOGLE_SERVICE_ACCOUNT_FILE cfg <> ""
  /\ WCOM_API_KEY cfg <> "" /\ STATION_ID cfg <> "".
Proof.
  unfold missing_names, name_if_empty.
  destruct (String.eqb_spec (GOOGLE_SHEET_ID cfg) ""),
           (String.eqb_spec (GOOGLE_SERVICE_ACCOUNT_FILE cfg) ""),
           (String.eqb_spec (WCOM_API_KEY cfg) ""),
           (String.eqb_spec (STATION_ID cfg) ""); simpl;
    split; try discriminate; tauto.
Qed.

(** X1. [require_env] returns exactly when none of the four required
    settings is empty.  Otherwise it raises a [RuntimeError] that names the
    empty settings, all of them and no other, in the order sheet id, service
    account, API key, station id; and the run ends with that error before
    the response is looked at and before the log is touched. *)
Theorem missing_settings_are_reported (cfg : config) :
  (require_env cfg = Ok tt <->
     GOOGLE_SHEET_ID cfg <> "" /\ GOOGLE_SERVICE_ACCOUNT_FILE cfg <> ""
     /\ WCOM_API_KEY cfg <> "" /\ STATION_ID cfg <> "")
  /\ (forall e, require_env cfg = Raise e ->
        exists missing, e = RuntimeError missing /\ missing <> []
          /\ sublist missing required_names
          /\ ("GOOGLE_SHEET_ID" ∈ missing <-> GOOGLE_SHEET_ID cfg = "")
          /\ ("GOOGLE_SERVICE_ACCOUNT_FILE" ∈ missing
              <-> GOOGLE_SERVICE_ACCOUNT_FILE cfg = "")
          /\ ("WCOM_API_KEY" ∈ missing <-> WCOM_API_KEY cfg = "")
          /\ ("STATION_ID" ∈ missing <-> STATION_ID cfg = ""))
  /\ (forall e L r w, require_env cfg = Raise e -> main L cfg r w = (Crash e, w)).
Proof.
  split; [| split].
  - rewrite require_env_missing, <- missing_names_nil.
    destruct (missing_names cfg); split; try discriminate; reflexivity.
  - intros e. rewrite require_env_missing.
    destruct (missing_names cfg) as [|k ks] eqn:Hm; [discriminate |].
    intros [= <-]. exists (k :: ks). split; [reflexivity |]. split; [discriminate |].
    rewrite <- Hm. split.
    { unfold missing_names, required_names.
      repeat apply (sublist_app _ [_]); apply sublist_name_if_empty. }
    repeat split; rewrite elem_of_missing_names; intros H;
      try (destruct H as [[He H] | [[He H] | [[He H] | [He H]]]];
           try discriminate He; exact H);
      tauto.
  - intros e L r w He. unfold main, bind, lift. now rewrite He.
Qed.

(** Two settings missing, computed. *)
Example two_settings_missing :
  let cfg := {| TZ := SAST; GOOGLE_SHEET_ID := ""; GOOGLE_SERVICE_ACCOUNT_FILE := "{...}";
                WCOM_API_KEY := "key"; STATION_ID := ""; DUP_WINDOW_SEC := 60 |} in
  main the_libs cfg (response_with "2024-01-01 10:00:00") (fresh_world [header])
  = (Crash (RuntimeError ["GOOGLE_SHEET_ID"; "STATION_ID"]), fresh_world [header]).
Proof. vm_compute. reflexivity. Qed.

(** ** The fetch *)

(** X2. [safe_fetch_current] hands the status and the body text through
    unchanged.  It returns decoded data (anything but [None]) only for a
    status of 200 with a body that is not blank and that decoded to that
    data; and whatever such a body decodes to is what it returns. *)
Theorem fetch_gives_data_only_when_decoded (r : Response) :
  exists data,
    safe_fetch_current r = (status_code r, data, text r)
    /\ (data <> VNone ->
          status_code r = 200 /\ strip (text r) <> "" /\ json r = Ok data)
    /\ (status_code r = 200 -> strip (text r) <> "" ->
          forall v, json r = Ok v -> data = v).
Proof.
  unfold safe_fetch_current.
  destruct (Z.eqb_spec (status_code r) 204) as [H4 | H4].
  { exists VNone. repeat split; congruence. }
  destruct (Z.eqb_spec (status_code r) 200) as [H2 | H2]; simpl.
  2: { exists VNone. repeat split; congruence. }
  destruct (String.eqb_spec (strip (text r)) "") as [Hb | Hb].
  { exists VNone. repeat split; congruence. }
  exists (try_except (json r) VNone). split; [reflexivity |]. split.
  - destruct (json r) as [v|e]; simpl; [auto | congruence].
  - intros _ _ v ->. reflexivity.
Qed.

(** ** Blank text *)

Lemma append_nil (t : string) : "" ++ t = t.
Proof. reflexivity. Qed.

Lemma append_cons a (s t : string) : String a s ++ t = String a (s ++ t).
Proof. reflexivity. Qed.

Lemma code_eq a n : (nat_of_ascii a =? n)%nat = true -> a = ascii_of_nat n.
Proof. intros H. apply Nat.eqb_eq in H. now rewrite <- H, ascii_nat_embedding. Qed.

Lemma space1_pattern b a : space1 a = true -> In (String a "") (patterns b).
Proof.
  destruct b; destruct a as [[] [] [] [] [] [] [] []]; intros H;
    try discriminate H; vm_compute; tauto.
Qed.

Lemma space2_pattern a b : space2 a b = true ->
  In (String a (String b "")) WHITESPACE /\ In (String b (String a "")) (map String.rev WHITESPACE).
Proof.
  unfold space2. intros H. apply andb_true_iff in H as [Ha Hb].
  apply code_eq in Ha as ->.
  destruct b as [[] [] [] [] [] [] [] []]; try discriminate Hb; vm_compute; tauto.
Qed.

Lemma space3_pattern a b c : space3 a b c = true ->
  In (String a (String b (String c ""))) WHITESPACE
  /\ In (String c (String b (String a ""))) (map String.rev WHITESPACE).
Proof.
  unfold space3. intros H.
  repeat match goal with
  | H : _ || _ = true |- _ => apply orb_true_iff in H as [H | H]
  | H : _ && _ = true |- _ => let H' := fresh in apply andb_true_iff in H as [H H']
  end;
  repeat match goal with
  | H : (nat_of_ascii ?x =? _)%nat = true |- _ => apply code_eq in H; subst x
  end;
  try (vm_compute; tauto);
  destruct c as [[] [] [] [] [] [] [] []];
  repeat match goal with H : _ = true |- _ => try discriminate H; clear H end;
  vm_compute; tauto.
Qed.

(** What is skipped is made of whitespace characters. *)
Lemma skip_spaces_skipped b n : forall s,
  (String.length s <= n)%nat ->
  exists w, made_of (patterns b) w /\ s = w ++ skip_spaces b s.
Proof.
  induction n as [|n IH]; intros s Hn.
  { destruct s; [| simpl in Hn; lia]. exists "". split; [constructor | reflexivity]. }
  assert (Hstay : exists w, made_of (patterns b) w /\ s = w ++ s)
    by (exists ""; split; [constructor | reflexivity]).
  destruct s as [|a s1]; [exact Hstay |].
  cbn [skip_spaces]. destruct (space1 a) eqn:H1.
  { destruct (IH s1 ltac:(simpl in Hn; lia)) as (w & Hw & Hs).
    exists (String a "" ++ w). split.
    - constructor; [now apply space1_pattern | exact Hw].
    - rewrite !append_cons, append_nil. f_equal. exact Hs. }
  destruct s1 as [|b' s2]; [exact Hstay |].
  destruct (if b then space2 b' a else space2 a b') eqn:H2.
  { destruct (IH s2 ltac:(simpl in Hn; lia)) as (w & Hw & Hs).
    exists (String a (String b' "") ++ w). split.
    - constructor; [| exact Hw].
      destruct b; apply space2_pattern in H2; tauto.
    - rewrite !append_cons, append_nil. do 2 f_equal. exact Hs. }
  destruct s2 as [|c s3]; [exact Hstay |].
  destruct (if b then space3 c b' a else space3 a b' c) eqn:H3; [| exact Hstay].
  destruct (IH s3 ltac:(simpl in Hn; lia)) as (w & Hw & Hs).
  exists (String a (String b' (String c "")) ++ w). split.
  - constructor; [| exact Hw].
    destruct b; apply space3_pattern in H3; tauto.
  - rewrite !append_cons, append_nil. do 3 f_equal. exact Hs.
Qed.

(** A whitespace character in front is skipped. *)
Lemma skip_spaces_pattern b c s : In c (patterns b) -> skip_spaces b (c ++ s) = skip_spaces b s.
Proof.
  destruct b; cbn; intros H;
    repeat (destruct H as [<- | H]; [reflexivity |]); destruct H.
Qed.

Lemma skip_spaces_made_of b s : made_of (patterns b) s -> skip_spaces b s = "".
Proof.
  induction 1 as [|c s Hc _ IH]; [reflexivity |]. now rewrite skip_spaces_pattern.
Qed.

Lemma append_empty_r (s : string) : s ++ "" = s.
Proof. induction s as [|a s IH]; [reflexivity |]. now rewrite append_cons, IH. Qed.

Lemma skip_spaces_empty b s : skip_spaces b s = "" <-> made_of (patterns b) s.
Proof.
  split; [| apply skip_spaces_made_of].
  intros H. destruct (skip_spaces_skipped b (String.length s) s ltac:(lia)) as (w & Hw & Hs).
  rewrite H, append_empty_r in Hs. now subst.
Qed.

Lemma append_assoc (a b c : string) : (a ++ b) ++ c = a ++ (b ++ c).
Proof. induction a as [|x a IH]; [reflexivity |]. now rewrite !append_cons, IH. Qed.

Lemma made_of_app W a b : made_of W a -> made_of W b -> made_of W (a ++ b).
Proof.
  induction 1 as [|c s Hc _ IH]; intros Hb; [exact Hb |].
  rewrite append_assoc. constructor; auto.
Qed.

Lemma rev_app_app a b acc : String.rev_app (a ++ b) acc = String.rev_app b (String.rev_app a acc).
Proof. revert acc. induction a; intros acc; simpl; [reflexivity | apply IHa]. Qed.

Lemma rev_app_rev a acc : String.rev_app a acc = String.rev a ++ acc.
Proof.
  unfold String.rev. revert acc. induction a as [|x a IH]; intros acc; simpl; [reflexivity |].
  rewrite IH, (IH (String x "")), append_assoc. reflexivity.
Qed.

Lemma rev_append a b : String.rev (a ++ b) = String.rev b ++ String.rev a.
Proof. unfold String.rev at 1. rewrite rev_app_app, rev_app_rev. reflexivity. Qed.

Lemma rev_rev s : String.rev (String.rev s) = s.
Proof.
  induction s as [|x s IH]; [reflexivity |].
  change (String x s) with (String x "" ++ s) at 1.
  rewrite rev_append, rev_append, IH. reflexivity.
Qed.

Lemma rev_empty s : String.rev s = "" -> s = "".
Proof. intros H. apply (f_equal String.rev) in H. now rewrite rev_rev in H. Qed.

(** A text read backwards is made of the characters read backwards. *)
Lemma made_of_rev s : made_of (patterns true) s -> made_of (patterns false) (String.rev s).
Proof.
  induction 1 as [|c s Hc _ IH]; [constructor |].
  rewrite rev_append. apply made_of_app; [exact IH |].
  rewrite <- (append_empty_r (String.rev c)). constructor; [| constructor].
  cbn [patterns] in *. apply in_map_iff in Hc as (c' & <- & Hc'). now rewrite rev_rev.
Qed.

Lemma skip_spaces_idem b n : forall s,
  (String.length s <= n)%nat -> skip_spaces b (skip_spaces b s) = skip_spaces b s.
Proof.
  induction n as [|n IH]; intros s Hn.
  { destruct s; [reflexivity | simpl in Hn; lia]. }
  destruct s as [|a s1]; [reflexivity |].
  cbn [skip_spaces]. destruct (space1 a) eqn:H1.
  { apply IH. simpl in Hn; lia. }
  destruct s1 as [|b' s2]; [cbn [skip_spaces]; now rewrite H1 |].
  destruct (if b then space2 b' a else space2 a b') eqn:H2.
  { apply IH. simpl in Hn; lia. }
  destruct s2 as [|c s3]; [cbn [skip_spaces]; now rewrite H1, H2 |].
  destruct (if b then space3 c b' a else space3 a b' c) eqn:H3.
  { apply IH. simpl in Hn; lia. }
  cbn [skip_spaces]. now rewrite H1, H2, H3.
Qed.

(** What is left after the whitespace does not start with any. *)
Lemma skip_spaces_made_of_rest b s :
  made_of (patterns b) (skip_spaces b s) -> skip_spaces b s = "".
Proof.
  intros H. apply skip_spaces_made_of in H.
  now rewrite (skip_spaces_idem b (String.length s) s ltac:(lia)) in H.
Qed.

(** [strip] leaves nothing exactly of a text of whitespace characters. *)
Lemma strip_empty s : strip s = "" <-> whitespace_only s.
Proof.
  unfold strip, rstrip, lstrip, whitespace_only. split.
  - intros H. apply rev_empty in H. apply skip_spaces_empty in H.
    apply made_of_rev in H. rewrite rev_rev in H.
    apply skip_spaces_made_of_rest in H. now apply skip_spaces_empty in H.
  - intros H. apply (skip_spaces_made_of false) in H. now rewrite H.
Qed.

(** X3. The script takes a text for blank exactly when it consists of
    whitespace characters only (the empty text included), the whitespace of
    Unicode: the no-break space and the ideographic space count as the
    space does.  So a 200 response whose body is whitespace gives no data,
    and a row whose timestamp cell is whitespace, appended at the bottom of
    the sheet, does not change what the log reader answers. *)
Theorem blank_means_whitespace_only (s : string) :
  (nonblank s = false <-> whitespace_only s)
  /\ (forall r, status_code r = 200 -> text r = s -> whitespace_only s ->
        safe_fetch_current r = (200, VNone, s))
  /\ (forall L cfg top rows cells tr, whitespace_only s ->
        (get_last_logged_timestamp L cfg
           {| sheet := (top :: rows ++ [s :: cells])%list; trace := tr |}).1
        = (get_last_logged_timestamp L cfg {| sheet := top :: rows; trace := tr |}).1).
Proof.
  assert (Hnb : nonblank s = false <-> whitespace_only s).
  { unfold nonblank. rewrite negb_false_iff, <- strip_empty.
    destruct (String.eqb_spec (strip s) ""); split; congruence. }
  split; [exact Hnb |]. split.
  - intros r H2 <- Hs. rewrite (safe_fetch_current_200 r H2).
    apply strip_empty in Hs. now rewrite Hs.
  - intros L cfg top rows cells tr Hs. rewrite !get_last_logged_timestamp_run. simpl.
    rewrite !last_logged_spec. unfold last_timestamp_cell, timestamp_column. simpl.
    rewrite fmap_app, filter_app. simpl.
    rewrite filter_cons_False by (apply Hnb in Hs; rewrite Hs; discriminate).
    rewrite filter_nil, app_nil_r. reflexivity.
Qed.

(** Blank and non-blank texts, computed: a tab and a space; a no-break
    space (U+00A0); an ideographic space (U+3000) and a line separator
    (U+2028); a zero-width space (U+200B), which is no whitespace; a
    timestamp between no-break spaces. *)
Example blank_texts :
  nonblank (utf8 [9; 32]) = false
  /\ nonblank (utf8 [194; 160]) = false
  /\ nonblank (utf8 [227; 128; 128; 226; 128; 168]) = false
  /\ nonblank (utf8 [226; 128; 139]) = true
  /\ strip (utf8 [194; 160] ++ "2024-01-01 10:00:00" ++ utf8 [194; 160])
     = "2024-01-01 10:00:00".
Proof. vm_compute. repeat split. Qed.

(** ** Exceptions *)

Lemma get_raises v k d e : get v k d = Raise e -> e = AttributeError /\ forall m, v <> VDict m.
Proof. destruct v; simpl; intros [= <-]; split; congruence. Qed.

Lemma getitem0_truthy_raises v e :
  truthy v = true -> getitem0 v = Raise e -> e = TypeError \/ e = KeyError.
Proof.
  destruct v as [| | | |s|l|m]; simpl; intros Ht He;
    try (injection He as <-; auto; fail).
  - destruct s; discriminate.
  - destruct l; discriminate.
Qed.

(** The classification of a 200 response whose body decoded to a truthy
    value. *)
Lemma classify_decoded r w data :
  status_code r = 200 -> strip (text r) <> "" -> json r = Ok data -> truthy data = true ->
  classify r w =
    match get data "observations" VNone with
    | Raise e => (Crash e, w)
    | Ok observations =>
        if truthy observations
        then match getitem0 observations with
             | Ok obs => (Next obs, w)
             | Raise e => (Crash e, w)
             end
        else (Done NoObservations, w)
    end.
Proof.
  intros H2 Hb Hj Ht. unfold classify. rewrite (safe_fetch_current_200 r H2).
  destruct (String.eqb_spec (strip (text r)) ""); [contradiction |].
  rewrite Hj. simpl. rewrite Ht. simpl.
  unfold bind, lift, done, ret, py_or.
  destruct (get data "observations" VNone) as [o|e]; [| reflexivity].
  destruct (truthy o) eqn:Ho; simpl; [| reflexivity].
  rewrite Ho. simpl. destruct (getitem0 o); reflexivity.
Qed.

Lemma classify_undecoded r w :
  status_code r <> 200 \/ strip (text r) = "" \/ (exists e, json r = Raise e)
    \/ (exists v, json r = Ok v /\ truthy v = false) ->
  exists msg, classify r w = (Done msg, w).
Proof.
  intros H. unfold classify, safe_fetch_current.
  destruct (Z.eqb_spec (status_code r) 204) as [H4 | H4].
  { rewrite H4. simpl. unfold done. eauto. }
  destruct (Z.eqb_spec (status_code r) 200) as [H2 | H2]; simpl.
  2: { destruct (Z.eqb_spec (status_code r) 204); [contradiction |].
       destruct (Z.eqb_spec (status_code r) 200); [contradiction |]. simpl.
       unfold done. eauto. }
  rewrite H2. simpl.
  destruct (String.eqb_spec (strip (text r)) "") as [Hb | Hb]; simpl.
  { unfold done. eauto. }
  destruct H as [H | [H | [[e He] | (v & Hv & Hf)]]]; try contradiction.
  - rewrite He. simpl. unfold done. eauto.
  - rewrite Hv. simpl. rewrite Hf. simpl. unfold done. eauto.
Qed.


Lemma map_row_raises ts obs e :
  map_row ts obs = Raise e ->
  e = AttributeError /\ forall o, obs = VDict o -> metric_of o = None.
Proof.
  destruct obs as [| | | | | |o]; try (simpl; intros [= <-]; split; [reflexivity | discriminate]).
  intros Hr.
  destruct (metric_of o) as [m|] eqn:Hm.
  { rewrite (map_row_of_dict ts o m Hm) in Hr. discriminate. }
  split; [| intros ? [= <-]; exact Hm].
  revert Hr Hm. unfold metric_of, map_row, py_or; simpl.
  destruct (o !! "metric") as [v|]; simpl; [| discriminate].
  destruct (truthy v); [| discriminate].
  destruct v; simpl; try discriminate; now intros [= <-].
Qed.

Lemma metric_of_none o :
  metric_of o = None <->
  exists v, o !! "metric" = Some v /\ truthy v = true /\ forall m, v <> VDict m.
Proof.
  unfold metric_of. destruct (o !! "metric") as [v|].
  - destruct (truthy v) eqn:Ht.
    + destruct v;
        (split; [intros H; try discriminate; eexists; repeat split; eauto; discriminate
                | intros (v' & [= <-] & _ & Hn); try reflexivity; now destruct (Hn m)]).
    + split; [discriminate | intros (v' & [= <-] & Ht' & _); congruence].
  - split; [discriminate | intros (v' & [=] & _)].
Qed.

(** X5. The field mapping raises nothing but [AttributeError].  It raises
    it on an observation that is not an object, and on an object exactly
    when its metric member is a truthy value that is not an object (a
    number, true, a non-empty string or list). *)
Theorem mapper_raises_on_a_metric_that_is_no_object (ts : string) (obs : value) :
  (forall e, map_row ts obs = Raise e -> e = AttributeError)
  /\ ((forall o, obs <> VDict o) -> map_row ts obs = Raise AttributeError)
  /\ (forall o, obs = VDict o ->
        (map_row ts obs = Raise AttributeError <->
         exists v, o !! "metric" = Some v /\ truthy v = true /\ forall m, v <> VDict m)).
Proof.
  split; [| split].
  - intros e He. now apply map_row_raises in He.
  - intros Hn. destruct obs; try reflexivity. now destruct (Hn m).
  - intros o ->. rewrite <- metric_of_none. split.
    + intros He. apply map_row_raises in He as [_ Hm]. now apply Hm.
    + intros Hm. destruct (map_row ts (VDict o)) as [row|e] eqn:Hr.
      * apply map_row_returns in Hr as (o' & m & [= <-] & Hm' & _). congruence.
      * apply map_row_raises in Hr as [-> _]. reflexivity.
Qed.

Lemma classify_raises r w e w' :
  classify r w = (Crash e, w') -> e = AttributeError \/ e = TypeError \/ e = KeyError.
Proof.
  unfold classify, bind, lift, done, ret.
  destruct (safe_fetch_current r) as [[status data] raw].
  destruct (status =? 204); [discriminate |].
  destruct (negb (status =? 200) || negb (truthy data)); [discriminate |].
  destruct (get data "observations" VNone) as [o|e'] eqn:Hg.
  - destruct (truthy (py_or o (VList []))) eqn:Ht; simpl; [| discriminate].
    destruct (getitem0 (py_or o (VList []))) as [obs|e'] eqn:Hi; [discriminate |].
    intros [= <- _]. right. eapply getitem0_truthy_raises; eauto.
  - intros [= <- _]. apply get_raises in Hg as [-> _]. auto.
Qed.

Lemma last_logged_returns L cfg ws : exists o, last_logged L cfg ws = Ok o.
Proof.
  rewrite last_logged_spec. destruct (last_timestamp_cell ws) as [c|]; [| eauto].
  apply parse_any_datetime_value_ok.
Qed.

Lemma astimezone_aware_raises sys z d i e :
  tz d = Some i -> astimezone sys z d = Raise e -> e = OverflowError.
Proof.
  unfold astimezone, convert. intros ->.
  destruct (bool_decide _); [discriminate |].
  destruct (negb (in_range _)); [now intros [= <-] |].
  destruct (negb (in_range _)); [now intros [= <-] | discriminate].
Qed.



(** ** What a run does to the log *)

Lemma log_observation_effect L cfg obs w :
  run_effect L cfg w (log_observation L cfg obs w).1 (log_observation L cfg obs w).2.
Proof.
  unfold log_observation, bind, lift, done, open_worksheet, emit, append_row.
  destruct (get obs "obsTimeLocal" VNone) as [v|e] eqn:Hv; [| simpl; auto].
  destruct (truthy v) eqn:Htv; simpl; [| auto].
  destruct (parse_any_datetime L cfg (Value v)) as [[d|]|e] eqn:Hp; simpl; [| auto | auto].
  destruct (astimezone (system_zone L) (TZ cfg) d) as [obs_ts|e] eqn:Ha; simpl; [| auto].
  rewrite get_last_logged_timestamp_run; simpl.
  destruct (last_logged L cfg (sheet w)) as [last|e] eqn:Hl; simpl;
    [| split; [reflexivity | right; now rewrite <- app_assoc]].
  destruct (duplicate_guard cfg obs_ts (strftime obs_ts) last) as [msg|] eqn:Hg.
  { apply duplicate_guard_message in Hg as (l & _ & [-> | ->]); simpl;
      (split; [reflexivity | right; now rewrite <- app_assoc]). }
  destruct (map_row (strftime obs_ts) obs) as [row|e] eqn:Hr; simpl;
    [| split; [reflexivity | right; now rewrite <- app_assoc]].
  apply map_row_returns in Hr as (o & m & _ & _ & ->).
  exists (mapped_row (strftime obs_ts) o m). split; [reflexivity |]. split; [reflexivity |].
  unfold logging_trace. now rewrite <- !app_assoc.
Qed.

Lemma classify_never_logs r w ts w' : classify r w <> (Done (Logged ts), w').
Proof.
  unfold classify, bind, lift, done, ret.
  destruct (safe_fetch_current r) as [[status data] raw].
  destruct (status =? 204); [discriminate |].
  destruct (negb (status =? 200) || negb (truthy data)); [discriminate |].
  destruct (get data "observations" VNone) as [o|e]; [| discriminate].
  destruct (negb (truthy (py_or o (VList [])))); [discriminate |].
  destruct (getitem0 (py_or o (VList []))); discriminate.
Qed.

Lemma main_effect L cfg r w :
  run_effect L cfg w (main L cfg r w).1 (main L cfg r w).2.
Proof.
  unfold main, bind, lift.
  destruct (require_env cfg) as [[]|e]; [| simpl; auto].
  destruct (classify_world r w) as [sc Hc]. rewrite Hc.
  destruct sc as [obs|msg|e]; [apply log_observation_effect | | simpl; auto].
  destruct msg; try (simpl; auto; fail).
  now destruct (classify_never_logs r w ts w).
Qed.

(** X7. Every run ends with a print or an exception.  It appends a row
    exactly when it prints the logged message: then it has opened the sheet,
    read it and appended one row of nine values, whose first value is the
    printed timestamp, below the rows it found.  In every other outcome,
    skip or exception, the rows are as they were, nothing was appended, and
    the sheet was opened and read once or not at all. *)
Theorem run_appends_exactly_when_it_logs (L : libs) (cfg : config) (r : Response)
    (w : world) :
  exists s w', main L cfg r w = (s, w')
  /\ (forall a, s <> Next a)
  /\ ((exists ts row,
         s = Done (Logged ts) /\ length row = 9%nat /\ head row = Some (VStr ts)
         /\ sheet w' = (sheet w ++ [map (cell_text L) row])%list
         /\ trace w' = (trace w ++ [EOpen (GOOGLE_SHEET_ID cfg) SHEET_TAB_NAME;
                                    EGetAllValues; EAppendRow row])%list)
      \/ ((forall ts, s <> Done (Logged ts))
          /\ sheet w' = sheet w
          /\ (trace w' = trace w
              \/ trace w' = (trace w ++ [EOpen (GOOGLE_SHEET_ID cfg) SHEET_TAB_NAME;
                                         EGetAllValues])%list))).
Proof.
  pose proof (main_effect L cfg r w) as H.
  destruct (main L cfg r w) as [s w']. exists s, w'. split; [reflexivity |].
  simpl in H. destruct s as [a|msg|e]; [contradiction | |].
  - split; [discriminate |].
    destruct msg; try (right; split; [discriminate | exact H]).
    destruct H as (row & Hlen & Hhd & ->). left. exists ts, row. auto.
  - split; [discriminate |]. right. split; [discriminate | exact H].
Qed.

(** The sheet after a run: the rows it found, and at most one more. *)
Lemma run_grows L cfg ws r :
  run L cfg ws r = ws
  \/ exists row, length row = 9%nat /\ run L cfg ws r = (ws ++ [map (cell_text L) row])%list.
Proof.
  unfold run.
  destruct (main L cfg r {| sheet := ws; trace := [] |}) as [s w'] eqn:Hmain.
  apply main_cases in Hmain as [[Hsheet _] | Happ]; simpl in *; [now left |].
  destruct Happ as (obs & v & d & obs_ts & last & row & _ & _ & _ & _ & _ & _ & _ & _ & Hrow
                    & _ & ->).
  right. exists row. split; [| reflexivity].
  now apply map_row_returns in Hrow as (o & m & _ & _ & ->).
Qed.

(** X8. The log is append-only under the script: after any sequence of
    runs the sheet is the sheet before them followed by the rows they
    added, at most one per run, each of nine cells.  No run rewrites,
    reorders or removes a row. *)
Theorem log_is_append_only (L : libs) (cfg : config) (ws : worksheet)
    (rs : list Response) :
  exists added,
    runs L cfg ws rs = (ws ++ added)%list
    /\ (length added <= length rs)%nat
    /\ Forall (fun row => length row = 9%nat) added.
Proof.
  revert ws. induction rs as [|r rs IH]; intros ws.
  - exists []. simpl. rewrite app_nil_r. repeat split; [lia | constructor].
  - simpl. destruct (IH (run L cfg ws r)) as (added & Hruns & Hlen & Hnine).
    rewrite Hruns.
    destruct (run_grows L cfg ws r) as [-> | (row & Hrow & ->)].
    + exists added. repeat split; [lia | exact Hnine].
    + exists (map (cell_text L) row :: added). rewrite <- app_assoc. simpl.
      repeat split; [lia |]. constructor; [| exact Hnine]. now rewrite length_map.
Qed.

(** ** What a run reads of the observation and of the log *)

Lemma get_insert_ne o k x k' d :
  k <> k' -> get (VDict (<[k := x]> o)) k' d = get (VDict o) k' d.
Proof. intros Hk. simpl. now rewrite lookup_insert_ne. Qed.

Lemma map_row_insert_ne ts o k x :
  k <> "metric" -> k <> "winddir" -> k <> "humidity" ->
  map_row ts (VDict (<[k := x]> o)) = map_row ts (VDict o).
Proof.
  intros H1 H2 H3. unfold map_row.
  rewrite !get_insert_ne by assumption. reflexivity.
Qed.

Lemma map_row_metric_insert_ne ts o m k x :
  o !! "metric" = Some (VDict m) ->
  k <> "temp" -> k <> "windSpeed" -> k <> "windGust" ->
  k <> "precipRate" -> k <> "precipTotal" -> k <> "pressure" ->
  map_row ts (VDict (<["metric" := VDict (<[k := x]> m)]> o)) = map_row ts (VDict o).
Proof.
  intros Hm H1 H2 H3 H4 H5 H6. unfold map_row.
  cbn [get res_bind]. rewrite lookup_insert_eq, Hm. cbn [default].
  rewrite !lookup_insert_ne by discriminate.
  unfold py_or.
  assert (Ht : truthy (VDict (<[k := x]> m)) = true).
  { simpl. apply negb_true_iff, bool_decide_eq_false_2. apply insert_non_empty. }
  unfold id. rewrite Ht.
  destruct (truthy (VDict m)) eqn:Htm.
  - cbn [get res_bind]. now rewrite !lookup_insert_ne by assumption.
  - assert (m = ∅) as ->.
    { simpl in Htm. apply negb_false_iff, bool_decide_eq_true_1 in Htm. exact Htm. }
    cbn [get res_bind]. now rewrite !lookup_insert_ne by assumption.
Qed.

(** A run depends on the observation through the obsTimeLocal member and
    the field mapping only. *)
Lemma log_observation_reads L cfg obs obs' w :
  get obs "obsTimeLocal" VNone = get obs' "obsTimeLocal" VNone ->
  (forall ts, map_row ts obs = map_row ts obs') ->
  log_observation L cfg obs w = log_observation L cfg obs' w.
Proof.
  intros Hget Hrow. unfold log_observation, bind, lift. rewrite Hget.
  destruct (get obs' "obsTimeLocal" VNone) as [v|e]; [| reflexivity].
  destruct (negb (truthy v)); [reflexivity |].
  destruct (parse_any_datetime L cfg (Value v)) as [[d|]|e]; try reflexivity.
  destruct (astimezone (system_zone L) (TZ cfg) d) as [obs_ts|e]; [| reflexivity].
  destruct (open_worksheet cfg w) as [[[]|msg|e] w1]; try reflexivity.
  destruct (get_last_logged_timestamp L cfg w1) as [[last|msg|e] w2]; try reflexivity.
  destruct (duplicate_guard cfg obs_ts (strftime obs_ts) last); [reflexivity |].
  now rewrite Hrow.
Qed.

(** X9. A run reads four members of the observation (obsTimeLocal, metric,
    winddir, humidity) and six members of its metric object (temp,
    windSpeed, windGust, precipRate, precipTotal, pressure).  Adding any
    other member to the observation or to its metric object, or changing
    one, changes nothing: same outcome, same appended row, same
    operations. *)
Theorem unread_members_are_ignored (L : libs) (cfg : config) (o : gmap string value)
    (k : string) (x : value) (w : world) :
  (k <> "obsTimeLocal" -> k <> "metric" -> k <> "winddir" -> k <> "humidity" ->
   log_observation L cfg (VDict (<[k := x]> o)) w = log_observation L cfg (VDict o) w)
  /\ (forall m, o !! "metric" = Some (VDict m) ->
        k <> "temp" -> k <> "windSpeed" -> k <> "windGust" ->
        k <> "precipRate" -> k <> "precipTotal" -> k <> "pressure" ->
        log_observation L cfg (VDict (<["metric" := VDict (<[k := x]> m)]> o)) w
        = log_observation L cfg (VDict o) w).
Proof.
  split.
  - intros H0 H1 H2 H3. apply log_observation_reads.
    + now apply get_insert_ne.
    + intros ts. now apply map_row_insert_ne.
  - intros m Hm H1 H2 H3 H4 H5 H6. apply log_observation_reads.
    + now apply get_insert_ne.
    + intros ts. now apply (map_row_metric_insert_ne _ o m k x Hm).
Qed.

Lemma world_unchanged (w : world) :
  w = {| sheet := (sheet w ++ [])%list; trace := (trace w ++ [])%list |}.
Proof. destruct w. simpl. now rewrite !app_nil_r. Qed.

Lemma log_observation_frame L cfg obs w1 w2 :
  last_timestamp_cell (sheet w1) = last_timestamp_cell (sheet w2) ->
  exists s added evs,
    log_observation L cfg obs w1
      = (s, {| sheet := (sheet w1 ++ added)%list; trace := (trace w1 ++ evs)%list |})
    /\ log_observation L cfg obs w2
      = (s, {| sheet := (sheet w2 ++ added)%list; trace := (trace w2 ++ evs)%list |}).
Proof.
  intros Hcell.
  assert (Hlast : last_logged L cfg (sheet w1) = last_logged L cfg (sheet w2))
    by (rewrite !last_logged_spec; now rewrite Hcell).
  unfold log_observation, bind, lift, done, open_worksheet, emit, append_row.
  destruct (get obs "obsTimeLocal" VNone) as [v|e].
  2: { exists (Crash e), [], []. split; f_equal; apply world_unchanged. }
  destruct (truthy v); simpl.
  2: { exists (Done MissingObsTime), [], []. split; f_equal; apply world_unchanged. }
  destruct (parse_any_datetime L cfg (Value v)) as [[d|]|e].
  2: { exists (Done (UnparsableObsTime v)), [], []. split; f_equal; apply world_unchanged. }
  2: { exists (Crash e), [], []. split; f_equal; apply world_unchanged. }
  destruct (astimezone (system_zone L) (TZ cfg) d) as [obs_ts|e].
  2: { exists (Crash e), [], []. split; f_equal; apply world_unchanged. }
  rewrite !get_last_logged_timestamp_run; simpl. rewrite Hlast.
  destruct (last_logged L cfg (sheet w2)) as [last|e].
  2: { exists (Crash e), [], [EOpen (GOOGLE_SHEET_ID cfg) SHEET_TAB_NAME; EGetAllValues].
       rewrite !app_nil_r, <- !app_assoc. split; reflexivity. }
  destruct (duplicate_guard cfg obs_ts (strftime obs_ts) last) as [msg|].
  { exists (Done msg), [], [EOpen (GOOGLE_SHEET_ID cfg) SHEET_TAB_NAME; EGetAllValues].
    rewrite !app_nil_r, <- !app_assoc. split; reflexivity. }
  destruct (map_row (strftime obs_ts) obs) as [row|e]; simpl.
  - exists (Done (Logged (strftime obs_ts))), [map (cell_text L) row], (logging_trace cfg row).
    unfold logging_trace. rewrite <- !app_assoc. split; reflexivity.
  - exists (Crash e), [], [EOpen (GOOGLE_SHEET_ID cfg) SHEET_TAB_NAME; EGetAllValues].
    rewrite !app_nil_r, <- !app_assoc. split; reflexivity.
Qed.

(** X10. Of the log a run looks at nothing but the last non-blank cell of
    the timestamp column.  On two sheets that agree on that cell (or both
    have none), whatever else they hold, a run on the same response ends
    the same way, appends the same row or none, and makes the same
    operations. *)
Theorem run_looks_at_the_last_timestamp_only (L : libs) (cfg : config) (r : Response)
    (w1 w2 : world) :
  last_timestamp_cell (sheet w1) = last_timestamp_cell (sheet w2) ->
  exists s added evs,
    main L cfg r w1
      = (s, {| sheet := (sheet w1 ++ added)%list; trace := (trace w1 ++ evs)%list |})
    /\ main L cfg r w2
      = (s, {| sheet := (sheet w2 ++ added)%list; trace := (trace w2 ++ evs)%list |}).
Proof.
  intros Hcell. unfold main, bind, lift.
  destruct (require_env cfg) as [[]|e].
  2: { exists (Crash e), [], []. split; f_equal; apply world_unchanged. }
  destruct (classify_world r w1) as [sc Hc]. rewrite Hc, (classify_frame r w1 w2 sc Hc).
  destruct sc as [obs|msg|e].
  - now apply log_observation_frame.
  - exists (Done msg), [], []. split; f_equal; apply world_unchanged.
  - exists (Crash e), [], []. split; f_equal; apply world_unchanged.
Qed.

(** Two sheets that differ in their first row, in the rows above the last
    timestamp, in the other columns and in the blank rows below. *)
Lemma run_looks_at_the_last_timestamp_only_example :
  let r := response_with "2024-01-01 10:00:30" in
  let w1 := fresh_world [header; ["2024-01-01 10:00:00"; "21"; "5"]] in
  let w2 := {| sheet := [["Time"]; ["2023-06-01 00:00:00"]; ["n/a"];
                         ["2024-01-01 10:00:00"; "33"]; []; ["  "; "7"]];
               trace := [EGetAllValues] |} in
  exists s added evs,
    main the_libs the_config r w1
      = (s, {| sheet := (sheet w1 ++ added)%list; trace := (trace w1 ++ evs)%list |})
    /\ main the_libs the_config r w2
      = (s, {| sheet := (sheet w2 ++ added)%list; trace := (trace w2 ++ evs)%list |}).
Proof.
  intros r w1 w2.
  apply (run_looks_at_the_last_timestamp_only the_libs the_config r w1 w2).
  vm_compute. reflexivity.
Defined.

(** ** The guard at work *)

(** The run from the guard on: what the guard answers decides. *)
Lemma log_observation_guarded L cfg obs v d obs_ts last w :
  get obs "obsTimeLocal" VNone = Ok v -> truthy v = true ->
  parse_any_datetime L cfg (Value v) = Ok (Some d) ->
  astimezone (system_zone L) (TZ cfg) d = Ok obs_ts ->
  last_logged L cfg (sheet w) = Ok last ->
  log_observation L cfg obs w =
    match duplicate_guard cfg obs_ts (strftime obs_ts) last with
    | Some msg =>
        (Done msg,
         {| sheet := sheet w;
            trace := (trace w ++ [EOpen (GOOGLE_SHEET_ID cfg) SHEET_TAB_NAME;
                                  EGetAllValues])%list |})
    | None =>
        match map_row (strftime obs_ts) obs with
        | Ok row =>
            (Done (Logged (strftime obs_ts)),
             {| sheet := (sheet w ++ [map (cell_text L) row])%list;
                trace := (trace w ++ logging_trace cfg row)%list |})
        | Raise e =>
            (Crash e,
             {| sheet := sheet w;
                trace := (trace w ++ [EOpen (GOOGLE_SHEET_ID cfg) SHEET_TAB_NAME;
                                      EGetAllValues])%list |})
        end
    end.
Proof.
  intros Hv Htv Hp Ha Hl.
  unfold log_observation, bind, lift, done, open_worksheet, emit, append_row.
  rewrite Hv, Htv. simpl. rewrite Hp, Ha, get_last_logged_timestamp_run. simpl.
  rewrite Hl. unfold logging_trace.
  destruct (duplicate_guard cfg obs_ts (strftime obs_ts) last); [now rewrite <- app_assoc |].
  destruct (map_row (strftime obs_ts) obs); simpl; now rewrite <- !app_assoc.
Qed.

(** What a run that printed the logged message went through. *)
Lemma main_logged L cfg r w ts w' :
  main L cfg r w = (Done (Logged ts), w') ->
  exists o m v d obs_ts last,
    require_env cfg = Ok tt /\ classify r w = (Next (VDict o), w) /\
    get (VDict o) "obsTimeLocal" VNone = Ok v /\ truthy v = true /\
    parse_any_datetime L cfg (Value v) = Ok (Some d) /\
    astimezone (system_zone L) (TZ cfg) d = Ok obs_ts /\
    last_logged L cfg (sheet w) = Ok last /\
    duplicate_guard cfg obs_ts ts last = None /\
    metric_of o = Some m /\ ts = strftime obs_ts /\
    w' = {| sheet := (sheet w ++ [map (cell_text L) (mapped_row ts o m)])%list;
            trace := (trace w ++ logging_trace cfg (mapped_row ts o m))%list |}.
Proof.
  intros Hmain.
  pose proof (main_effect L cfg r w) as Heff. rewrite Hmain in Heff. simpl in Heff.
  destruct Heff as (row0 & _ & _ & Hw0).
  apply main_cases in Hmain as [[Hsheet _] | Happ].
  { exfalso. rewrite Hw0 in Hsheet. simpl in Hsheet.
    apply (f_equal length) in Hsheet. rewrite length_app in Hsheet. simpl in Hsheet. lia. }
  destruct Happ as (obs & v & d & obs_ts & last & row & Henv & Hc & Hv & Htv & Hp & Ha & Hl
                    & Hg & Hrow & [= ->] & ->).
  apply map_row_returns in Hrow as (o & m & -> & Hm & ->).
  exists o, m, v, d, obs_ts, last. repeat split; assumption.
Qed.

(** X11. The guard is applied only where the log has a non-blank timestamp
    below its first row.  An observation that is logged on some sheet is
    logged on every sheet without such a cell (an empty sheet, a sheet with
    a header only, a sheet with blank rows below the header), with the same
    timestamp, however old it is and whatever the window. *)
Theorem first_data_row_is_logged_unguarded (L : libs) (cfg : config) (r : Response)
    (w0 w0' w : world) (ts : string) :
  main L cfg r w0 = (Done (Logged ts), w0') ->
  last_timestamp_cell (sheet w) = None ->
  exists row,
    main L cfg r w
    = (Done (Logged ts),
       {| sheet := (sheet w ++ [map (cell_text L) row])%list;
          trace := (trace w ++ logging_trace cfg row)%list |})
    /\ head row = Some (VStr ts).
Proof.
  intros Hmain Hnone.
  apply main_logged in Hmain
    as (o & m & v & d & obs_ts & last & Henv & Hc & Hv & Htv & Hp & Ha & _ & _ & Hm & -> & _).
  exists (mapped_row (strftime obs_ts) o m). split; [| reflexivity].
  unfold main, bind, lift. rewrite Henv, (classify_frame r w0 w _ Hc).
  assert (Hl : last_logged L cfg (sheet w) = Ok None)
    by (rewrite last_logged_spec; now rewrite Hnone).
  rewrite (log_observation_guarded L cfg _ v d obs_ts None w Hv Htv Hp Ha Hl).
  cbn [duplicate_guard]. now rewrite (map_row_of_dict _ o m Hm).
Qed.

Lemma first_data_row_is_logged_unguarded_example :
  let r := response_with "1999-12-31 23:59:59" in
  let w := {| sheet := [header; [" "; "21"]; []]; trace := [EGetAllValues] |} in
  exists row,
    main the_libs the_config r w
    = (Done (Logged "1999-12-31 23:59:59"),
       {| sheet := (sheet w ++ [map (cell_text the_libs) row])%list;
          trace := (trace w ++ logging_trace the_config row)%list |})
    /\ head row = Some (VStr "1999-12-31 23:59:59").
Proof.
  intros r w.
  apply (first_data_row_is_logged_unguarded the_libs the_config r (fresh_world [])
           (main the_libs the_config r (fresh_world [])).2 w "1999-12-31 23:59:59").
  - vm_compute. reflexivity.
  - vm_compute. reflexivity.
Defined.

(** A run that logged, run again on the same response. *)
Lemma repeated_response_skipped L cfg r w w1 ts tr :
  parser_reads_pattern L -> parser_returns_datetimes L cfg ->
  sheet_keeps_text L -> localize_not_earlier (TZ cfg) ->
  1 <= DUP_WINDOW_SEC cfg ->
  observed_inside L cfg r = true ->
  sheet w <> [] ->
  main L cfg r w = (Done (Logged ts), w1) ->
  exists msg,
    main L cfg r {| sheet := sheet w1; trace := tr |}
    = (Done msg,
       {| sheet := sheet w1;
          trace := (tr ++ [EOpen (GOOGLE_SHEET_ID cfg) SHEET_TAB_NAME;
                           EGetAllValues])%list |})
    /\ ((exists last, msg = NotNewer ts last) \/ msg = TooSoon (DUP_WINDOW_SEC cfg) ts).
Proof.
  intros Hparse Hret Htext Hzone HW Hin Hne Hmain.
  apply main_logged in Hmain
    as (o & m & v & d & obs_ts & last & Henv & Hc & Hv & Htv & Hp & Ha & _ & _ & Hm & -> & ->).
  unfold observed_inside in Hin.
  rewrite (observation_time_of_run L cfg r _ _ v d obs_ts Hc Hv Htv Hp Ha) in Hin.
  pose proof (obs_ts_settled L cfg v d obs_ts Hret Hzone Hp Ha Hin) as Hsettled.
  destruct (read_back_settled L cfg obs_ts Hparse Hsettled Hin) as (t' & Ht' & Hmod & Hfloor).
  unfold read_back in Ht'.
  destruct (parse_any_datetime L cfg (Value (VStr (strftime obs_ts)))) as [[dl|]|] eqn:Hdl;
    try discriminate.
  injection Ht' as <-.
  cbn [sheet].
  set (w1 := {| sheet := _; trace := tr |}).
  assert (Hl : last_logged L cfg (sheet w1) = Ok (Some dl)).
  { rewrite last_logged_spec. unfold last_timestamp_cell. subst w1. cbn [sheet].
    rewrite timestamp_column_snoc. destruct (sheet w) as [|h rows]; [contradiction |].
    unfold mapped_row. cbn [map hd]. rewrite Htext, filter_app, last_app.
    rewrite filter_cons_True by (unfold strftime; apply strftime_wall_nonblank).
    simpl. exact Hdl. }
  unfold main, bind, lift. rewrite Henv, (classify_frame r w w1 _ Hc).
  rewrite (log_observation_guarded L cfg _ v d obs_ts (Some dl) w1 Hv Htv Hp Ha Hl).
  rewrite duplicate_guard_compares.
  destruct (Z.leb_spec (instant obs_ts) (instant dl)) as [Hle | Hgt].
  { eexists. split; [reflexivity |]. left. eauto. }
  rewrite too_soon_within_a_second; [| exact HW | lia |].
  { eexists. split; [reflexivity |]. now right. }
  unfold floor_sec, US in *. Z.div_mod_to_equations. lia.
Qed.



(** Why the sheet must have a first row: on a sheet without any row the
    appended row becomes the first one, which the reader takes for the
    header, and the same observation is logged again. *)
Example a_sheet_without_rows_logs_twice :
  let r := response_with "2024-01-01 10:00:00" in
  timestamp_column (runs the_libs the_config [] [r; r; r]) = ["2024-01-01 10:00:00"]
  /\ length (runs the_libs the_config [] [r; r; r]) = 2%nat.
Proof. vm_compute. split; reflexivity. Qed.

Lemma spaced_snoc g (ts : list Z) t' :
  spaced g ts -> (forall t, last ts = Some t -> t + g <= t') -> spaced g (ts ++ [t'])%list.
Proof.
  intros Hs Hlast i a b Ha Hb.
  apply lookup_app_Some in Hb as [Hb | [Hlen Hb]].
  - apply lookup_app_Some in Ha as [Ha | [Hlen _]]; [exact (Hs i a b Ha Hb) |].
    apply lookup_lt_Some in Hb. lia.
  - apply list_lookup_singleton_Some in Hb as [Hi <-].
    assert (Hi' : i = pred (length ts)) by lia.
    apply lookup_app_Some in Ha as [Ha | [Hlen' _]]; [| lia].
    apply Hlast. rewrite last_lookup, <- Hi'. exact Ha.
Qed.

Lemma run_window_kept L cfg ws r :
  parser_reads_pattern L -> parser_returns_datetimes L cfg ->
  sheet_keeps_text L -> localize_not_earlier (TZ cfg) ->
  DUP_WINDOW_SEC cfg <= 2 ^ 34 ->
  observed_inside L cfg r = true ->
  ws <> [] -> window_kept L cfg ws -> window_kept L cfg (run L cfg ws r).
Proof.
  intros Hparse Hret Htext Hzone HW Hin Hne Hkept. unfold run.
  destruct (main L cfg r {| sheet := ws; trace := [] |}) as [s w'] eqn:Hmain.
  apply main_cases in Hmain as [[Hsheet _] | Happ]; simpl in *.
  { now rewrite Hsheet. }
  destruct Happ as (obs & v & d & obs_ts & last & row & _ & Hc & Hv & Htv & Hd & Ha & Hlast
                    & Hguard & Hrow & _ & ->). simpl.
  unfold observed_inside in Hin.
  rewrite (observation_time_of_run L cfg r _ obs v d obs_ts Hc Hv Htv Hd Ha) in Hin.
  apply map_row_returns in Hrow as (o & m & _ & _ & ->).
  unfold mapped_row. cbn [map]. rewrite Htext.
  destruct Hkept as (ts & Hreads & Hspaced & Hwhole & Hnb).
  unfold window_kept, column_reads in *. rewrite timestamp_column_snoc.
  destruct ws as [|h ws']; [contradiction |].
  set (ws := h :: ws') in *. cbn [hd].
  pose proof (obs_ts_settled L cfg v d obs_ts Hret Hzone Hd Ha Hin) as Hsettled.
  destruct (read_back_settled L cfg obs_ts Hparse Hsettled Hin) as (t' & Ht' & Hmod & Hfloor).
  exists (ts ++ [t'])%list. repeat split.
  - rewrite !fmap_app, Hreads. simpl. now rewrite Ht'.
  - apply spaced_snoc; [exact Hspaced |].
    intros t Ht.
    pose proof (last_logged_of_column L cfg ws ts Hreads Hnb) as Hl. rewrite Ht in Hl.
    destruct Hl as (dl & Hdl & <-). rewrite Hdl in Hlast. injection Hlast as <-.
    apply (duplicate_guard_admits _ _ _ _ HW) in Hguard as [Hnewer Hfar].
    assert (Hw : instant dl mod US = 0).
    { apply last_Some in Ht as [ts' ->]. apply Forall_app in Hwhole as [_ Hw].
      now inversion Hw. }
    unfold floor_sec, US in *. Z.div_mod_to_equations. lia.
  - apply Forall_app. split; [exact Hwhole | repeat constructor; exact Hmod].
  - apply Forall_app. split; [exact Hnb | repeat constructor].
    unfold strftime. apply strftime_wall_nonblank.
Qed.

Lemma window_kept_without_data L cfg ws : (length ws = 1)%nat -> window_kept L cfg ws.
Proof.
  intros Hlen. exists [].
  assert (Hcol : timestamp_column ws = []).
  { destruct ws as [|h [|r ws]]; simpl in *; try reflexivity; lia. }
  unfold column_reads. rewrite Hcol. repeat split; try constructor. intros i a b [=].
Qed.

(** X13. The window shows in the log.  Under the library behaviour the log
    relies on, with a window of at most 2^34 seconds, in a log that started
    with its header row alone, or was kept so by earlier runs, every
    timestamp cell is non-blank and reads back as an instant on a whole
    second, and each cell reads back at least the window after the cell
    above it, after any sequence of runs on observations timed from the year
    1000 to two days before the end of the range of datetimes. *)
Theorem logged_rows_are_a_window_apart (L : libs) (cfg : config) (ws : worksheet)
    (rs : list Response) :
  parser_reads_pattern L -> parser_returns_datetimes L cfg ->
  sheet_keeps_text L -> localize_not_earlier (TZ cfg) ->
  DUP_WINDOW_SEC cfg <= 2 ^ 34 ->
  (length ws = 1)%nat \/ (ws <> [] /\ window_kept L cfg ws) ->
  Forall (fun r => observed_inside L cfg r = true) rs ->
  window_kept L cfg (runs L cfg ws rs).
Proof.
  intros Hparse Hret Htext Hzone HW Hws Hin.
  assert (Hkept : ws <> [] /\ window_kept L cfg ws).
  { destruct Hws as [Hlen | Hk]; [| exact Hk].
    split; [now destruct ws | now apply window_kept_without_data]. }
  clear Hws. destruct Hkept as [Hne Hkept].
  revert ws Hne Hkept. induction Hin as [|r rs Hr _ IH]; intros ws Hne Hkept; [exact Hkept |].
  simpl. apply IH; [now apply run_not_empty | now apply run_window_kept].
Qed.

Lemma logged_rows_are_a_window_apart_example :
  window_kept the_libs the_config
    (runs the_libs the_config [header]
       [ response_with "2024-01-01 10:00:00";
         response_with "2024-01-01 10:00:59";
         response_with "2024-01-01 10:01:00";
         response_with "2024-01-01 09:00:00";
         response_with "2024-01-01 10:02:00" ]).
Proof.
  apply (logged_rows_are_a_window_apart the_libs the_config).
  - exact parser_reads_pattern_the_libs.
  - exact (parser_returns_datetimes_the_libs the_config).
  - exact sheet_keeps_text_the_libs.
  - exact localize_not_earlier_SAST.
  - vm_compute. discriminate.
  - left. reflexivity.
  - repeat constructor; vm_compute; reflexivity.
Defined.

(** X14. The window only narrows what is admitted, and a window of zero
    seconds or less switches the too-soon skip off.  What the guard admits
    with some window it admits with every smaller one; with a window of
    zero or less it skips an observation exactly when its instant is not
    after the last logged one, as not newer. *)
Theorem window_bounds_of_the_guard (cfg : config) (obs_ts : datetime) (ts : string) :
  (forall cfg' last,
     DUP_WINDOW_SEC cfg <= DUP_WINDOW_SEC cfg' ->
     duplicate_guard cfg' obs_ts ts last = None ->
     duplicate_guard cfg obs_ts ts last = None)
  /\ (DUP_WINDOW_SEC cfg <= 0 ->
      forall last,
        duplicate_guard cfg obs_ts ts (Some last)
        = if instant obs_ts <=? instant last
          then Some (NotNewer ts (strftime last)) else None).
Proof.
  split.
  - intros cfg' last HW. destruct last as [l|]; [| reflexivity].
    rewrite !duplicate_guard_compares.
    destruct (instant obs_ts <=? instant l); [discriminate |].
    destruct (Qle_bool (inject_Z (DUP_WINDOW_SEC cfg')) _) eqn:Hq; [| discriminate].
    intros _. now rewrite (window_test_mono _ _ _ HW Hq).
  - intros HW last.
    rewrite duplicate_guard_unfold by (change (2 ^ 34) with 17179869184; lia).
    destruct (Z.leb_spec (instant obs_ts) (instant last)); [reflexivity |].
    destruct (Z.ltb_spec (instant obs_ts - instant last) (DUP_WINDOW_SEC cfg * US));
      [unfold US in *; lia | reflexivity].
Qed.

(** ** The timestamp that is written *)

(** X15. The written timestamp keeps the clock reading to the second and
    nothing else: two datetimes within the range of datetimes are written
    as the same text exactly when their clock readings fall in the same
    second. *)
Theorem timestamp_text_determines_the_second (d1 d2 : datetime) :
  in_range (wall d1) = true -> in_range (wall d2) = true ->
  (strftime d1 = strftime d2 <-> wall d1 / US = wall d2 / US).
Proof.
  intros H1 H2. unfold strftime. split.
  - intros Heq.
    pose proof (parse_pattern_strftime _ H1) as P1.
    pose proof (parse_pattern_strftime _ H2) as P2.
    rewrite Heq, P2 in P1. injection P1 as P1.
    rewrite !floor_sec_mul in P1. unfold US in *. lia.
  - intros Heq. unfold strftime_wall. now rewrite Heq.
Qed.

Lemma timestamp_text_determines_the_second_example :
  let d1 := {| wall := seconds_of 2024 1 1 10 0 0 * US + 250000; tz := None |} in
  let d2 := at_zone "Africa/Johannesburg" 7200 2024 1 1 10 0 0 in
  strftime d1 = strftime d2 <-> wall d1 / US = wall d2 / US.
Proof.
  intros d1 d2. apply (timestamp_text_determines_the_second d1 d2); vm_compute; reflexivity.
Defined.

Lemma convert_again z d off r :
  convert z d off = Ok r ->
  forall i, tz r = Some i -> convert z r (utcoffset i) = Ok r.
Proof.
  unfold convert.
  destruct (negb (in_range (wall d - off * US))) eqn:Hu; [discriminate |].
  destruct (negb (in_range (wall d - off * US + _ * US))) eqn:Hw; [discriminate |].
  intros [= <-] i. cbn [tz wall]. intros [= <-]. cbn [utcoffset].
  replace (wall d - off * US + fromutc_offset z ((wall d - off * US) / US) * US
           - fromutc_offset z ((wall d - off * US) / US) * US)
    with (wall d - off * US) by lia.
  now rewrite Hu, Hw.
Qed.

(** X16. Line 171 settles the datetime that is formatted.  The conversion
    applied to what the normalizer returned keeps the instant, and its
    result is a fixed point: converting it again, or normalizing it again as
    an already-structured instant, returns it unchanged. *)
Theorem logged_instant_is_normalized (L : libs) (cfg : config) (a : any)
    (d obs_ts : datetime) :
  parse_any_datetime L cfg a = Ok (Some d) ->
  astimezone (system_zone L) (TZ cfg) d = Ok obs_ts ->
  instant obs_ts = instant d
  /\ astimezone (system_zone L) (TZ cfg) obs_ts = Ok obs_ts
  /\ parse_any_datetime L cfg (Datetime obs_ts) = Ok (Some obs_ts).
Proof.
  intros Hp Ha.
  destruct (parse_any_datetime_aware L cfg a d Hp) as [off Hi].
  destruct (astimezone_aware _ _ _ _ _ Hi Ha) as (Hinst & o & Ho).
  assert (Hagain : astimezone (system_zone L) (TZ cfg) obs_ts = Ok obs_ts).
  { destruct (astimezone_cases _ _ _ _ _ Hi Ha) as [[_ ->] | [_ Hc]]; [exact Ha |].
    unfold astimezone. rewrite Ho.
    destruct (bool_decide _); [reflexivity |].
    exact (convert_again _ _ _ _ Hc _ Ho). }
  split; [exact Hinst |]. split; [exact Hagain |].
  unfold parse_any_datetime, to_TZ. cbn [is_none eq_empty_str orb].
  now rewrite Ho, Hagain.
Qed.

(** A reading that the London clock skips: the normalizer returns 01:30
    tagged as GMT, line 171 turns it into 02:30 British Summer Time, and
    that stays. *)
Lemma logged_instant_is_normalized_example :
  let cfg := config_with London 60 in
  let d := at_zone "Europe/London" 0 2024 3 31 1 30 0 in
  let obs_ts := at_zone "Europe/London" 3600 2024 3 31 2 30 0 in
  instant obs_ts = instant d
  /\ astimezone (system_zone the_libs) (TZ cfg) obs_ts = Ok obs_ts
  /\ parse_any_datetime the_libs cfg (Datetime obs_ts) = Ok (Some obs_ts).
Proof.
  intros cfg d obs_ts.
  apply (logged_instant_is_normalized the_libs cfg (Value (VStr "2024-03-31 01:30:00"))
           d obs_ts);
    vm_compute; reflexivity.
Defined.

Lemma in_range_floor_sec w : in_range w = true -> in_range (floor_sec w) = true.
Proof.
  unfold in_range. intros H. apply andb_true_iff in H as [Hlo Hhi].
  apply Z.leb_le in Hlo, Hhi.
  assert (Hmin : WALL_MIN = -62135596800000000) by reflexivity.
  assert (Hmax : WALL_MAX = 253402300799999999) by reflexivity.
  apply andb_true_iff. split; apply Z.leb_le; unfold floor_sec, US;
    Z.div_mod_to_equations; lia.
Qed.

Lemma strftime_wall_floor_sec w : strftime_wall (floor_sec w) = strftime_wall w.
Proof. unfold strftime_wall. now rewrite floor_sec_div. Qed.

(** X17. A time given in the pattern of the log is logged as it was given.
    When the parser reads the pattern, and the reading is one the clock of
    the configured zone shows ([localize] resolves it to an offset that is
    in force at that instant, as for every reading of a zone with a fixed
    offset), the text YYYY-MM-DD HH:MM:SS is normalized and converted to a
    datetime that is written as the same text, at the instant of that
    reading in the zone.  The statement is for readings from year 1000 on,
    where every platform writes the year with four digits. *)
Theorem pattern_time_is_logged_as_given (L : libs) (cfg : config) (w0 o : Z) :
  parser_reads_pattern L ->
  seconds_of 1000 1 1 0 0 0 * US <= w0 ->
  in_range w0 = true ->
  localize_offset (TZ cfg) (w0 / US) = Ok o ->
  fromutc_offset (TZ cfg) (w0 / US - o) = o ->
  in_range (w0 - o * US) = true ->
  exists d obs_ts,
    parse_any_datetime L cfg (Value (VStr (strftime_wall w0))) = Ok (Some d)
    /\ astimezone (system_zone L) (TZ cfg) d = Ok obs_ts
    /\ strftime obs_ts = strftime_wall w0
    /\ instant obs_ts = floor_sec w0 - o * US.
Proof.
  intros Hparse Hera Hr Hloc Hfrom Hu.
  rewrite (parse_written L cfg w0 Hparse Hr Hera), Hloc.
  eexists. exists {| wall := floor_sec w0;
                     tz := Some {| zone := zone_name (TZ cfg); utcoffset := o |} |}.
  split; [reflexivity |]. split; [| split].
  - unfold astimezone. cbn [tz].
    destruct (bool_decide _); [reflexivity |].
    unfold convert. cbn [wall utcoffset].
    rewrite <- floor_sec_shift, (in_range_floor_sec _ Hu). cbn [negb].
    rewrite floor_sec_div.
    replace ((w0 - o * US) / US) with (w0 / US - o)
      by (unfold US; Z.div_mod_to_equations; lia).
    rewrite Hfrom, floor_sec_shift.
    replace (floor_sec w0 - o * US + o * US) with (floor_sec w0) by lia.
    now rewrite (in_range_floor_sec _ Hr).
  - unfold strftime. cbn [wall]. apply strftime_wall_floor_sec.
  - reflexivity.
Qed.

Lemma pattern_time_is_logged_as_given_example :
  exists d obs_ts,
    parse_any_datetime the_libs the_config (Value (VStr "2024-01-01 10:00:00")) = Ok (Some d)
    /\ astimezone (system_zone the_libs) (TZ the_config) d = Ok obs_ts
    /\ strftime obs_ts = "2024-01-01 10:00:00"
    /\ instant obs_ts = seconds_of 2024 1 1 8 0 0 * US.
Proof.
  apply (pattern_time_is_logged_as_given the_libs the_config
           (seconds_of 2024 1 1 10 0 0 * US + 5) 7200).
  - exact parser_reads_pattern_the_libs.
  - apply Z.leb_le. vm_compute. reflexivity.
  - vm_compute. reflexivity.
  - vm_compute. reflexivity.
  - vm_compute. reflexivity.
  - vm_compute. reflexivity.
Defined.

(** ** The row that is written *)

(** X18. The nine columns of the row a run appends.  The row has exactly nine
    columns in the fixed order: the timestamp of the observation as
    formatted, then temperature, wind speed, wind gust (from the metric
    sub-structure), wind direction (top level), precipitation rate,
    precipitation total, pressure (metric) and humidity (top level).  A
    member that is absent gives the empty string, a member that is present
    gives its value unchanged, so that a column is null exactly when its
    member is present and null; and an observation with a metric
    sub-structure (or none) always maps to such a row. *)
Theorem row_has_nine_columns_in_order (L : libs) (cfg : config) :
  (forall r w row,
     In (EAppendRow row) (trace (main L cfg r w).2) ->
     ~ In (EAppendRow row) (trace w) ->
     exists obs_ts o m,
       classify r w = (Next (VDict o), w) /\
       observation_time L cfg r = Some obs_ts /\
       metric_of o = Some m /\
       map_row (strftime obs_ts) (VDict o) = Ok row)
  /\ (forall ts o m, metric_of o = Some m ->
        exists row,
          map_row ts (VDict o) = Ok row
          /\ length row = 9%nat
          /\ row !! 0%nat = Some (VStr ts)
          /\ (forall i k,
                In (i, k) [ (1, "temp"); (2, "windSpeed"); (3, "windGust");
                            (5, "precipRate"); (6, "precipTotal"); (7, "pressure") ]%nat ->
                row !! i = Some (match m !! k with Some v => v | None => VStr "" end))
          /\ (forall i k,
                In (i, k) [ (4, "winddir"); (8, "humidity") ]%nat ->
                row !! i = Some (match o !! k with Some v => v | None => VStr "" end))
          /\ (In VNone row <->
                (exists k, In k [ "temp"; "windSpeed"; "windGust"; "precipRate";
                                  "precipTotal"; "pressure" ] /\ m !! k = Some VNone)
                \/ (exists k, In k [ "winddir"; "humidity" ] /\ o !! k = Some VNone))).
Proof.
  split.
  - intros r w row Hin Hnot.
    destruct (main L cfg r w) as [s w'] eqn:Hmain. simpl in Hin.
    apply main_cases in Hmain as [[_ [Ht | Ht]] | Happ].
    + rewrite Ht in Hin. contradiction.
    + rewrite Ht in Hin. apply in_app_or in Hin as [Hin | Hin]; [contradiction |].
      simpl in Hin. destruct Hin as [Hin | [Hin | []]]; discriminate.
    + destruct Happ as (obs & v & d & obs_ts & last & row' & _ & Hc & Hv & Htv & Hd & Ha & _ & _
                        & Hrow & _ & ->).
      simpl in Hin. apply in_app_or in Hin as [Hin | Hin]; [contradiction |].
      simpl in Hin. destruct Hin as [Hin | [Hin | [Hin | []]]]; try discriminate.
      injection Hin as <-.
      pose proof Hrow as Hrow'.
      apply map_row_returns in Hrow' as (o & m & -> & Hm & _).
      exists obs_ts, o, m. repeat split; try assumption.
      exact (observation_time_of_run L cfg r w _ v d obs_ts Hc Hv Htv Hd Ha).
  - intros ts o m Hm. exists (mapped_row ts o m).
    split; [now apply map_row_of_dict |]. split; [reflexivity |]. split; [reflexivity |].
    unfold mapped_row, field, default.
    split; [| split].
    + intros i k Hik. simpl in Hik.
      repeat (destruct Hik as [[= <- <-] | Hik]; [reflexivity |]). destruct Hik.
    + intros i k Hik. simpl in Hik.
      repeat (destruct Hik as [[= <- <-] | Hik]; [reflexivity |]). destruct Hik.
    + split.
      * intros Hin. simpl in Hin.
        destruct Hin as [[=] | Hin].
        repeat (destruct Hin as [Hin | Hin];
                [match type of Hin with
                 | match ?x !! ?k with _ => _ end = VNone =>
                     destruct (x !! k) as [[]|] eqn:Hk; try discriminate Hin;
                     first [ left; exists k; split; [simpl; tauto | exact Hk]
                           | right; exists k; split; [simpl; tauto | exact Hk] ]
                 end |]).
        destruct Hin.
      * intros [(k & Hk & Hv) | (k & Hk & Hv)]; simpl in Hk;
          repeat (destruct Hk as [<- | Hk]; [rewrite Hv; simpl; tauto |]); destruct Hk.
Qed.
